(** * Verification of the LaikaTest JavaScript client

    Shallow embedding of the parts of the LaikaTest SDK that govern
    - the TTL prompt cache ([lib/cache.js], [packages/client/lib/cache.js]),
    - prompt-name / version validation and [LaikaTest.getPrompt] ([index.js],
      [lib/validation.js]),
    - the error classification of [fetchPrompt] ([lib/prompts.js]),
    - the ambient session / user / property context of the OpenTelemetry
      package ([context.ts], [properties.ts]) and the span enrichment done by
      [LaikaSpanProcessor.onStart] ([laikaSpanProcessor.ts]),
    - the constructor, [pushScore], [getExperimentPrompt] and [destroy] of
      the client ([index.js]), the other validators ([lib/validation.js]),
      the URL check of [lib/http.js], [lib/prompt_utils.js],
      [lib/experiment.js], [lib/score_utils.js] and [Prompt] ([lib/prompt.js]). *)

From Stdlib Require Import ZArith String Ascii Lia DecimalString.
From stdpp Require Import base list gmap strings.

Local Set Warnings "-register-all".
Local Open Scope Z_scope.
Local Open Scope string_scope.

(* ------------------------------------------------------------------ *)
(** ** JavaScript values *)
(* ------------------------------------------------------------------ *)

(** The non-finite numbers: [NaN], [Infinity] and [-Infinity]. *)
Inductive nonfinite : Type :=
  | NaN
  | Infinity
  | NegInfinity.

(** The JavaScript values that flow through the modelled code.  Finite
    numbers are kept integral ([Z]): the code only compares them, tests
    them against [0] or with [Number.isFinite], and timestamps from
    [Date.now()] are integral milliseconds.  An object is the list of its
    own enumerable properties, in order. *)
Inductive jsval : Type :=
  | JUndefined
  | JNull
  | JBool (b : bool)
  | JNum (z : Z)
  | JNonFinite (k : nonfinite)
  | JStr (s : string)
  | JArray (xs : list jsval)
  | JObject (fields : list (string * jsval)).

(** JavaScript truthiness ([if (v)], [!v], [v ? a : b]). *)
Definition truthy (v : jsval) : bool :=
  match v with
  | JUndefined | JNull => false
  | JBool b => b
  | JNum z => negb (Z.eqb z 0)
  | JNonFinite NaN => false
  | JNonFinite _ => true
  | JStr s => negb (String.eqb s "")
  | JArray _ | JObject _ => true
  end.

(** Truthiness of a value that is either a string or null/undefined. *)
Definition truthy_opt_str (v : option string) : bool :=
  match v with
  | Some s => truthy (JStr s)
  | None => false
  end.

(** [String(v)], as a template literal [`${v}`] converts [v]: an array is
    joined with [','], its [null] and [undefined] elements giving the empty
    string; a plain object gives ['[object Object]']. *)
Fixpoint js_to_string (v : jsval) : string :=
  match v with
  | JUndefined => "undefined"
  | JNull => "null"
  | JBool true => "true"
  | JBool false => "false"
  | JNum z => NilZero.string_of_int (Z.to_int z)
  | JNonFinite NaN => "NaN"
  | JNonFinite Infinity => "Infinity"
  | JNonFinite NegInfinity => "-Infinity"
  | JStr s => s
  | JArray xs =>
      (fix join (ys : list jsval) : string :=
         match ys with
         | [] => ""
         | y :: rest =>
             let item := match y with
                         | JUndefined | JNull => ""
                         | _ => js_to_string y
                         end in
             match rest with
             | [] => item
             | _ :: _ => item ++ "," ++ join rest
             end
         end) xs
  | JObject _ => "[object Object]"
  end.

(* ------------------------------------------------------------------ *)
(** ** The TTL prompt cache *)
(* ------------------------------------------------------------------ *)

(** [{ content, fetchedAt }] *)
Record entry : Type := mkEntry { content : jsval; fetchedAt : Z }.

(** A [PromptCache] instance: the backing [Map] and the TTL in ms.  The
    periodic cleanup timer is not modelled (it only deletes entries that
    [get] would delete as well). *)
Record PromptCache : Type := mkCache { cache : gmap string entry; ttl : Z }.

(** [new PromptCache(ttl)] *)
Definition new_cache (t : Z) : PromptCache := mkCache ∅ t.

(** [this.cache.set(key, { content, fetchedAt: Date.now() })], the clock
    read giving [now]. *)
Definition cache_store (c : PromptCache) (key : string) (v : jsval) (now : Z)
  : PromptCache :=
  mkCache (<[key := mkEntry v now]> (cache c)) (ttl c).

(** Body of [get] once the key is computed; [null] is [None].  Returns the
    result and the cache after the call ([this.cache.delete(key)] on
    expiry). *)
Definition cache_fetch (c : PromptCache) (key : string) (now : Z)
  : option jsval * PromptCache :=
  match cache c !! key with
  | None => (None, c)
  | Some e =>
      if Z.gtb (now - fetchedAt e) (ttl c)
      then (None, mkCache (delete key (cache c)) (ttl c))
      else (Some (content e), c)
  end.

(** [src/lib/cache.js]: keys are built from project, prompt and version. *)
Module LibCache.

(** [generateKey(projectId, promptName, versionId)] *)
Definition generateKey (projectId promptName : string) (versionId : option string)
  : string :=
  match versionId with
  | Some v => if truthy (JStr v)
              then projectId ++ ":" ++ promptName ++ ":" ++ v
              else projectId ++ ":" ++ promptName
  | None => projectId ++ ":" ++ promptName
  end.

(** [set(projectId, promptName, versionId, content)] *)
Definition set (c : PromptCache) (projectId promptName : string)
  (versionId : option string) (v : jsval) (now : Z) : PromptCache :=
  cache_store c (generateKey projectId promptName versionId) v now.

(** [get(projectId, promptName, versionId)] *)
Definition get (c : PromptCache) (projectId promptName : string)
  (versionId : option string) (now : Z) : option jsval * PromptCache :=
  cache_fetch c (generateKey projectId promptName versionId) now.

(** [generateKey] on whatever values the caller passes: the test is the
    truthiness of [versionId], and [`${x}`] is [js_to_string x]. *)
Definition generateKey_js (projectId promptName versionId : jsval) : string :=
  if truthy versionId
  then js_to_string projectId ++ ":" ++ js_to_string promptName ++ ":" ++ js_to_string versionId
  else js_to_string projectId ++ ":" ++ js_to_string promptName.

(** [set(projectId, promptName, versionId, content)] on arbitrary values. *)
Definition set_js (c : PromptCache) (projectId promptName versionId content : jsval) (now : Z)
  : PromptCache :=
  cache_store c (generateKey_js projectId promptName versionId) content now.

(** [get(projectId, promptName, versionId)] on arbitrary values. *)
Definition get_js (c : PromptCache) (projectId promptName versionId : jsval) (now : Z)
  : option jsval * PromptCache :=
  cache_fetch c (generateKey_js projectId promptName versionId) now.

End LibCache.

(** [packages/client/lib/cache.js]: keys are built from prompt and version. *)
Module ClientCache.

(** [generateKey(promptName, versionId)] *)
Definition generateKey (promptName : string) (versionId : option string)
  : string :=
  match versionId with
  | Some v => if truthy (JStr v) then promptName ++ ":" ++ v else promptName
  | None => promptName
  end.

(** [set(promptName, versionId, content)] *)
Definition set (c : PromptCache) (promptName : string)
  (versionId : option string) (v : jsval) (now : Z) : PromptCache :=
  cache_store c (generateKey promptName versionId) v now.

(** [get(promptName, versionId)] *)
Definition get (c : PromptCache) (promptName : string)
  (versionId : option string) (now : Z) : option jsval * PromptCache :=
  cache_fetch c (generateKey promptName versionId) now.

End ClientCache.

(* ------------------------------------------------------------------ *)
(** ** Errors and the result monad *)
(* ------------------------------------------------------------------ *)

(** The exceptions the modelled code throws ([lib/errors.js] classes, a
    plain [Error], and the [TypeError] of a property read on [null]). *)
Inductive js_error : Type :=
  | ValidationError (message : string)
  | AuthenticationError (message : jsval)
  | LaikaServiceError (message : jsval) (statusCode : Z) (response : jsval)
  | NetworkError (message : string)
  | PlainError (message : string)
  | TypeError.

(** A computation that returns a value or throws. *)
Inductive result (A : Type) : Type :=
  | Ok (a : A)
  | Err (e : js_error).
Arguments Ok {A} a.
Arguments Err {A} e.

Global Instance result_ret : MRet result := fun A a => Ok a.
Global Instance result_bind : MBind result :=
  fun A B f m => match m with Ok a => f a | Err e => Err e end.

(** Property read [v.k]: throws on [null]/[undefined], gives [undefined]
    for a missing field; on an object with a repeated key the last one
    counts, as with [JSON.parse]. *)
Definition js_field (fields : list (string * jsval)) (k : string) : jsval :=
  fold_left (fun acc kv => if String.eqb kv.1 k then kv.2 else acc) fields JUndefined.

Definition get_prop (v : jsval) (k : string) : result jsval :=
  match v with
  | JUndefined | JNull => Err TypeError
  | JObject fields => Ok (js_field fields k)
  | _ => Ok JUndefined
  end.

(* ------------------------------------------------------------------ *)
(** ** [lib/validation.js] *)
(* ------------------------------------------------------------------ *)

(** The characters [String.prototype.trim] removes, restricted to the
    one-byte characters strings are modelled with. *)
Definition js_whitespace (c : ascii) : bool :=
  match nat_of_ascii c with
  | 9 | 10 | 11 | 12 | 13 | 32 | 160 => true
  | _ => false
  end%nat.

(** [s.trim()] is the empty string. *)
Fixpoint trims_to_empty (s : string) : bool :=
  match s with
  | EmptyString => true
  | String c r => js_whitespace c && trims_to_empty r
  end.

(** [validatePromptName(promptName)]; on success the (unchanged) name is
    passed on, as the caller keeps using [promptName]. *)
Definition validatePromptName (promptName : jsval) : result string :=
  match promptName with
  | JStr s =>
      if truthy promptName && negb (trims_to_empty s) then Ok s
      else Err (ValidationError "Prompt name is required and must be a non-empty string")
  | _ => Err (ValidationError "Prompt name is required and must be a non-empty string")
  end.

(** [\d] (without the [u] flag: ASCII digits). *)
Definition is_digit (c : ascii) : bool :=
  (48 <=? nat_of_ascii c)%nat && (nat_of_ascii c <=? 57)%nat.

(** [\d+] against the whole remaining input. *)
Definition digits1 (s : string) : bool :=
  match s with
  | EmptyString => false
  | String _ _ => forallb is_digit (list_ascii_of_string s)
  end.

(** [/^(?:v?\d+)$/.test(s)] *)
Definition version_regex (s : string) : bool :=
  match s with
  | String c r => if ascii_dec c "v" then digits1 r else digits1 s
  | EmptyString => false
  end.

(** [s.replace(/^v/, '')] *)
Definition strip_v (s : string) : string :=
  match s with
  | String c r => if ascii_dec c "v" then r else s
  | EmptyString => EmptyString
  end.

(** The message of the regex check, whose text contains double quotes. *)
Definition version_format_message : string :=
  let dq := String (ascii_of_nat 34) EmptyString in
  "Version ID must be digits only (e.g., " ++ dq ++ "10" ++ dq ++ ") or " ++ dq ++ "v" ++ dq ++
  " followed by digits (e.g., " ++ dq ++ "v10" ++ dq ++ ").".

(** [validateVersionId(versionId)]: [Ok None] is the [return;] of the
    optional case (the caller receives [undefined]).  [versionId.length]
    counts characters of the modelled one-byte strings. *)
Definition validateVersionId (versionId : jsval) : result (option string) :=
  if negb (truthy versionId) then Ok None else
  match versionId with
  | JStr s =>
      if (128 <? String.length s)%nat
      then Err (ValidationError "Version ID is too long. Maximum length is 128 characters.")
      else if version_regex s then Ok (Some (strip_v s))
      else Err (ValidationError version_format_message)
  | _ => Err (ValidationError "Version ID must be a string")
  end.

(* ------------------------------------------------------------------ *)
(** ** [lib/prompts.js]: fetching a prompt *)
(* ------------------------------------------------------------------ *)

(** What [makeHttpRequest(url, options, timeout)] produces: a rejection
    (connection error, timeout, refused plain-HTTP URL), or a response with
    its status code and body.  The body is given by the result of
    [JSON.parse(response.data)]: [None] when the text is not valid JSON. *)
Inductive http_outcome : Type :=
  | RequestFailed (cause : js_error)
  | Responded (statusCode : Z) (parsedBody : option jsval).

(** [parseApiResponse(data)] *)
Definition parseApiResponse (body : option jsval) : result jsval :=
  match body with
  | Some v => Ok v
  | None => Err (PlainError "Invalid JSON response from server")
  end.

(** [handleApiError(statusCode, parsed)]: always throws. *)
Definition handleApiError (statusCode : Z) (parsed : jsval) : result jsval :=
  if Z.eqb statusCode 401 then
    e ← get_prop parsed "error";
    Err (AuthenticationError (if truthy e then e else JStr "Invalid API key"))
  else
    e ← get_prop parsed "error";
    Err (LaikaServiceError (if truthy e then e else JStr "API request failed")
           statusCode parsed).

(** [fetchPrompt(apiKey, baseUrl, projectId, promptName, versionId, timeout)]
    from the point where the request has been issued: the URL and headers
    only determine which [http_outcome] the server produces. *)
Definition fetchPrompt (response : http_outcome) : result jsval :=
  match response with
  | RequestFailed _ => Err (NetworkError "Failed to connect to LaikaTest API")
  | Responded statusCode body =>
      parsed ← parseApiResponse body;
      accepted ← (if Z.eqb statusCode 200
                  then success ← get_prop parsed "success"; Ok (truthy success)
                  else Ok false);
      if (accepted : bool) then
        data ← get_prop parsed "data";
        get_prop data "content"
      else handleApiError statusCode parsed
  end.

(* ------------------------------------------------------------------ *)
(** ** [index.js]: [LaikaTest.getPrompt] *)
(* ------------------------------------------------------------------ *)

(** [new Prompt(content)] ([_type] is derived from [content]). *)
Record Prompt : Type := mkPrompt { prompt_content : jsval }.

(** The client fields [getPrompt] uses: [cacheEnabled] and [cache].  The
    cache is the [PromptCache] of [lib/cache.js], the module [index.js]
    requires, whose [get] and [set] take [(projectId, promptName, versionId)]
    and [(projectId, promptName, versionId, content)]. *)
Record LaikaTest : Type := mkLaikaTest {
  cacheEnabled : bool;
  prompt_cache : PromptCache
}.

Definition with_cache (client : LaikaTest) (c : PromptCache) : LaikaTest :=
  mkLaikaTest (cacheEnabled client) c.

(** The value [validateVersionId] returns: the string, or [undefined]. *)
Definition version_val (versionId : option string) : jsval :=
  match versionId with
  | Some v => JStr v
  | None => JUndefined
  end.

(** The fetch-and-store tail of [getPrompt] (after a cache miss or when the
    cache is not consulted).  [this.cache.set(promptName, versionId, content)]
    fills the four parameters of [set] from the left: [projectId] is the
    name, [promptName] the version, [versionId] the content, and the stored
    [content] is [undefined]. *)
Definition fetch_and_store (client : LaikaTest) (c1 : PromptCache)
    (fetch : string -> option string -> result jsval)
    (name : string) (versionId : option string) (t_set : Z)
  : result Prompt * LaikaTest * list (string * option string) :=
  match fetch name versionId with
  | Err e => (Err e, with_cache client c1, [(name, versionId)])
  | Ok content =>
      let c2 := if cacheEnabled client
                then LibCache.set_js c1 (JStr name) (version_val versionId) content JUndefined t_set
                else c1 in
      (Ok (mkPrompt content), with_cache client c2, [(name, versionId)])
  end.

(** [getPrompt(promptName, options = {})].  [fetch name versionId] is the
    outcome of [fetchPrompt(this.apiKey, this.baseUrl, name, versionId,
    this.timeout)]; [t_get] and [t_set] are the clock reads of [cache.get]
    and [cache.set].  [this.cache.get(promptName, versionId)] fills [get]'s
    parameters from the left, [versionId] being [undefined].  Returns the
    outcome, the client after the call, and the list of [fetchPrompt] calls
    made. *)
Definition getPrompt (client : LaikaTest)
    (fetch : string -> option string -> result jsval)
    (promptName options : jsval) (t_get t_set : Z)
  : result Prompt * LaikaTest * list (string * option string) :=
  match validatePromptName promptName with
  | Err e => (Err e, client, [])
  | Ok name =>
    let opts := match options with JUndefined => JObject [] | o => o end in
    match get_prop opts "versionId" with
    | Err e => (Err e, client, [])
    | Ok versionIdArg =>
    match validateVersionId versionIdArg with
    | Err e => (Err e, client, [])
    | Ok versionId =>
    match get_prop opts "bypassCache" with
    | Err e => (Err e, client, [])
    | Ok bypass =>
      let bypassCache := truthy bypass in
      let '(cached, c1) :=
        if cacheEnabled client && negb bypassCache
        then LibCache.get_js (prompt_cache client) (JStr name) (version_val versionId)
               JUndefined t_get
        else (None, prompt_cache client) in
      match cached with
      | Some v =>
          if truthy v then (Ok (mkPrompt v), with_cache client c1, [])
          else fetch_and_store client c1 fetch name versionId t_set
      | None => fetch_and_store client c1 fetch name versionId t_set
      end
    end
    end
    end
  end.

(** Every entry of the cache holds [undefined], what [getPrompt] stores. *)
Definition entries_undefined (c : PromptCache) : Prop :=
  map_Forall (fun _ e => content e = JUndefined) (cache c).

(* ------------------------------------------------------------------ *)
(** ** [auto-otel]: ambient context and custom properties *)
(* ------------------------------------------------------------------ *)

(** [string | number | boolean]: property and span attribute values. *)
Inductive pv : Type :=
  | PStr (s : string)
  | PNum (z : Z)
  | PBool (b : bool).

(** [interface LaikaContext { sessionId; userId }] *)
Record LaikaContext : Type := mkCtx {
  sessionId : option string;
  userId : option string
}.

(** The module-level state of the package: the current store of the
    [AsyncLocalStorage] of [context.ts] ([None] outside any
    [runWithContext] extent), and the module-level [properties] map of
    [properties.ts].  The store object is reachable only through
    [getStore()], so it is modelled as a value. *)
Record otel_state : Type := mkOtel {
  als_store : option LaikaContext;
  properties : gmap string pv
}.

(** The state when the modules are loaded. *)
Definition init_state : otel_state := mkOtel None ∅.

(** [getContext()] *)
Definition getContext (st : otel_state) : LaikaContext :=
  match als_store st with
  | Some store => store
  | None => mkCtx None None
  end.

(** [setSessionId(sessionId)] *)
Definition setSessionId (s : string) (st : otel_state) : otel_state :=
  match als_store st with
  | Some store => mkOtel (Some (mkCtx (Some s) (userId store))) (properties st)
  | None => st
  end.

(** [getSessionId()] *)
Definition getSessionId (st : otel_state) : option string := sessionId (getContext st).

(** [clearSessionId()] *)
Definition clearSessionId (st : otel_state) : otel_state :=
  match als_store st with
  | Some store => mkOtel (Some (mkCtx None (userId store))) (properties st)
  | None => st
  end.

(** [setUserId(userId)] *)
Definition setUserId (u : string) (st : otel_state) : otel_state :=
  match als_store st with
  | Some store => mkOtel (Some (mkCtx (sessionId store) (Some u))) (properties st)
  | None => st
  end.

(** [getUserId()] *)
Definition getUserId (st : otel_state) : option string := userId (getContext st).

(** [clearUserId()] *)
Definition clearUserId (st : otel_state) : otel_state :=
  match als_store st with
  | Some store => mkOtel (Some (mkCtx (sessionId store) None)) (properties st)
  | None => st
  end.

(** [setProperty(key, value)]: [properties.set(key, value)]. *)
Definition setProperty (k : string) (v : pv) (st : otel_state) : otel_state :=
  mkOtel (als_store st) (<[k := v]> (properties st)).

(** [setProperties(props)]: [setProperty] over [Object.entries(props)]. *)
Definition setProperties (props : list (string * pv)) (st : otel_state) : otel_state :=
  fold_left (fun s kv => setProperty kv.1 kv.2 s) props st.

(** [getProperties()]: [Object.fromEntries(properties)], a copy. *)
Definition getProperties (st : otel_state) : gmap string pv := properties st.

(** [clearProperties()] *)
Definition clearProperties (st : otel_state) : otel_state := mkOtel (als_store st) ∅.

(** [removeProperty(key)] *)
Definition removeProperty (k : string) (st : otel_state) : otel_state :=
  mkOtel (als_store st) (delete k (properties st)).

(** Programs over the context API, run sequentially.  [CObserve] reads
    [getSessionId()], [getUserId()] and [getProperties()];
    [CRunWithContext body] is [runWithContext(() => { body })] (and
    [runWithContextAsync] awaited before the next statement). *)
Inductive cmd : Type :=
  | CSetSessionId (s : string)
  | CClearSessionId
  | CSetUserId (u : string)
  | CClearUserId
  | CSetProperty (k : string) (v : pv)
  | CSetProperties (props : list (string * pv))
  | CClearProperties
  | CRemoveProperty (k : string)
  | CObserve
  | CRunWithContext (body : list cmd).

(** What a [CObserve] sees. *)
Definition observation : Type := (option string * option string * gmap string pv)%type.

(** Running a statement list with a statement interpreter [f]. *)
Definition exec_seq (f : cmd -> otel_state -> otel_state * list observation) :
    list cmd -> otel_state -> otel_state * list observation :=
  fix go (body : list cmd) (st : otel_state) : otel_state * list observation :=
    match body with
    | [] => (st, [])
    | c :: rest =>
        let '(st1, o1) := f c st in
        let '(st2, o2) := go rest st1 in
        (st2, (o1 ++ o2)%list)
    end.

(** One statement.  [asyncLocalStorage.run({ sessionId: null, userId: null }, cb)]
    installs a fresh store for [cb] and restores the previous one when
    [cb] returns; the properties map is untouched by it. *)
Fixpoint exec (c : cmd) (st : otel_state) : otel_state * list observation :=
  match c with
  | CSetSessionId s => (setSessionId s st, [])
  | CClearSessionId => (clearSessionId st, [])
  | CSetUserId u => (setUserId u st, [])
  | CClearUserId => (clearUserId st, [])
  | CSetProperty k v => (setProperty k v st, [])
  | CSetProperties props => (setProperties props st, [])
  | CClearProperties => (clearProperties st, [])
  | CRemoveProperty k => (removeProperty k st, [])
  | CObserve => (st, [(getSessionId st, getUserId st, getProperties st)])
  | CRunWithContext body =>
      let '(st', o) := exec_seq exec body (mkOtel (Some (mkCtx None None)) (properties st)) in
      (mkOtel (als_store st) (properties st'), o)
  end.

(** The session and user components of observations. *)
Definition ids_of (o : list observation) : list (option string * option string) :=
  map (fun ob => (ob.1.1, ob.1.2)) o.

(* ------------------------------------------------------------------ *)
(** ** [auto-otel]: [LaikaSpanProcessor.onStart] *)
(* ------------------------------------------------------------------ *)

(** [{ experimentId, variantId, userId? }] *)
Record experiment : Type := mkExperiment {
  experimentId : string;
  variantId : string;
  exp_userId : option string
}.

(** The loaded [@laikatest/client] module, as [getExperimentContext] sees
    it: no callable [getCurrentExperiment] (or a falsy module), or a probe
    that returns an experiment or [null]/[undefined] ([None]), or throws. *)
Inductive client_module : Type :=
  | NoProbe
  | Probe (outcome : result (option experiment)).

(** The experiment-assignment collaborator: the module is not installed
    ([require] throws [MODULE_NOT_FOUND]), loading it throws another error,
    or it loads. *)
Inductive collaborator : Type :=
  | ModuleMissing
  | ModuleLoadFails (e : js_error)
  | ModuleLoaded (m : client_module).

(** [require('@laikatest/client')] *)
Definition require_client (collab : collaborator) : result client_module :=
  match collab with
  | ModuleMissing => Err (PlainError "Cannot find module '@laikatest/client'")
  | ModuleLoadFails e => Err e
  | ModuleLoaded m => Ok m
  end.

(** The span being started, and the process's [console.error] output. *)
Record span_state : Type := mkSpan {
  attributes : gmap string pv;
  console_log : list string
}.

(** [span.setAttribute(key, value)] *)
Definition setAttribute (k : string) (v : pv) (sp : span_state) : span_state :=
  mkSpan (<[k := v]> (attributes sp)) (console_log sp).

(** [getExperimentContext()]: the [try] block, then the empty [catch]. *)
Definition getExperimentContext (collab : collaborator) (sp : span_state)
  : option experiment * span_state :=
  let body : result (option experiment) :=
    client ← require_client collab;
    match client with
    | NoProbe => Ok None
    | Probe outcome => outcome
    end in
  match body with
  | Ok exp => (exp, sp)
  | Err _ => (None, sp)
  end.

(** The custom properties step of [onStart]: one attribute per entry of
    [Object.entries(getProperties())] (the iteration order does not matter,
    the attribute names being distinct). *)
Definition inject_properties (props : list (string * pv)) (sp : span_state) : span_state :=
  fold_left (fun s kv => setAttribute ("laika.property." ++ kv.1) kv.2 s) props sp.

(** "Inject session ID" step of [onStart]. *)
Definition inject_session (st : otel_state) (sp : span_state) : span_state :=
  match getSessionId st with
  | Some s => if truthy (JStr s) then setAttribute "laika.session.id" (PStr s) sp else sp
  | None => sp
  end.

(** "Inject user ID" step of [onStart]. *)
Definition inject_user (st : otel_state) (sp : span_state) : span_state :=
  match getUserId st with
  | Some u => if truthy (JStr u) then setAttribute "laika.user.id" (PStr u) sp else sp
  | None => sp
  end.

(** "Inject experiment context if available" step of [onStart]. *)
Definition inject_experiment (collab : collaborator) (sp : span_state) : span_state :=
  let '(exp, sp') := getExperimentContext collab sp in
  match exp with
  | Some e =>
      let sp'' := setAttribute "laika.experiment.variant_id" (PStr (variantId e))
                    (setAttribute "laika.experiment.id" (PStr (experimentId e)) sp') in
      if truthy_opt_str (exp_userId e)
      then setAttribute "laika.experiment.user_id" (PStr (default "" (exp_userId e))) sp''
      else sp''
  | None => sp'
  end.

(** [LaikaSpanProcessor.onStart(span, parentContext)] in the ambient state
    [st].  None of its steps throws: the only fallible part, the probe of
    the collaborator, runs inside [getExperimentContext]'s [try]. *)
Definition onStart (st : otel_state) (collab : collaborator) (sp : span_state)
  : result span_state :=
  let sp1 := inject_session st sp in
  let sp2 := inject_user st sp1 in
  let sp3 := inject_properties (map_to_list (getProperties st)) sp2 in
  Ok (inject_experiment collab sp3).

(* ------------------------------------------------------------------ *)
(** ** [PromptCache.cleanup], [PromptCache.destroy], [LaikaTest.destroy] *)
(* ------------------------------------------------------------------ *)

(** An entry is expired at [now] when [now - entry.fetchedAt > this.ttl]. *)
Definition expired (c : PromptCache) (now : Z) (e : entry) : bool :=
  Z.gtb (now - fetchedAt e) (ttl c).

(** [cleanup()] with [Date.now()] = [now] (the same body in both cache
    files).  The loop deletes each expired entry it visits; deleting the
    visited key of a [Map] does not skip or repeat the other entries, so
    the loop keeps exactly the entries that are not expired. *)
Definition cleanup (c : PromptCache) (now : Z) : PromptCache :=
  mkCache (filter (fun ke : string * entry => expired c now ke.2 = false) (cache c)) (ttl c).

(** [destroy()]: the interval is cleared (not modelled) and the map is
    emptied. *)
Definition destroy (c : PromptCache) : PromptCache := mkCache ∅ (ttl c).

(** [LaikaTest.destroy()]: [if (this.cache) this.cache.destroy()]; the
    cache is [null] exactly when caching is disabled. *)
Definition laika_destroy (client : LaikaTest) : LaikaTest :=
  if cacheEnabled client then with_cache client (destroy (prompt_cache client)) else client.

(* ------------------------------------------------------------------ *)
(** ** [lib/validation.js]: the other validators *)
(* ------------------------------------------------------------------ *)

(** [validateApiKey(apiKey)]; on success the key is passed on. *)
Definition validateApiKey (apiKey : jsval) : result string :=
  match apiKey with
  | JStr s =>
      if truthy apiKey then Ok s
      else Err (ValidationError "API key is required and must be a string")
  | _ => Err (ValidationError "API key is required and must be a string")
  end.

(** [validateExperimentTitle(experimentTitle)]; on success the title is
    passed on. *)
Definition validateExperimentTitle (experimentTitle : jsval) : result string :=
  match experimentTitle with
  | JStr s =>
      if truthy experimentTitle && negb (trims_to_empty s) then Ok s
      else Err (ValidationError "Experiment title is required and must be a non-empty string")
  | _ => Err (ValidationError "Experiment title is required and must be a non-empty string")
  end.

(** [`${index}`] for an array index. *)
Definition index_string (n : nat) : string := NilZero.string_of_uint (Nat.to_uint n).

(** [score.type === t] for a string literal [t]. *)
Definition js_str_is (v : jsval) (t : string) : bool :=
  match v with
  | JStr s => String.eqb s t
  | _ => false
  end.

(** The body of the [scores.forEach] callback for [(score, index)].  The
    ['int'] check [typeof value !== 'number' || !Number.isFinite(value)]
    accepts exactly the finite numbers [JNum _]. *)
Definition validateScore (index : nat) (score : jsval) : result unit :=
  let idx := index_string index in
  match score with
  | JObject fields =>
    let name := js_field fields "name" in
    let type_ := js_field fields "type" in
    let value := js_field fields "value" in
    match name with
    | JStr n =>
      if negb (truthy name) || trims_to_empty n
      then Err (ValidationError ("Score at index " ++ idx ++ " must have a non-empty 'name' string"))
      else
      if negb (truthy type_) ||
         negb (js_str_is type_ "int" || js_str_is type_ "bool" || js_str_is type_ "string")
      then Err (ValidationError ("Score at index " ++ idx ++ " must have type 'int', 'bool', or 'string'"))
      else
      match value with
      | JUndefined | JNull =>
          Err (ValidationError ("Score at index " ++ idx ++ " must have a 'value' field"))
      | _ =>
        _ ← (if js_str_is type_ "int" then
               match value with
               | JNum _ => Ok tt
               | _ => Err (ValidationError ("Score '" ++ n ++ "' has type 'int' but value is not a valid number"))
               end
             else Ok tt);
        _ ← (if js_str_is type_ "bool" then
               match value with
               | JBool _ => Ok tt
               | _ => Err (ValidationError ("Score '" ++ n ++ "' has type 'bool' but value is not a boolean"))
               end
             else Ok tt);
        if js_str_is type_ "string" then
          match value with
          | JStr _ => Ok tt
          | _ => Err (ValidationError ("Score '" ++ n ++ "' has type 'string' but value is not a string"))
          end
        else Ok tt
      end
    | _ => Err (ValidationError ("Score at index " ++ idx ++ " must have a non-empty 'name' string"))
    end
  | _ => Err (ValidationError ("Score at index " ++ idx ++ " must be a plain object"))
  end.

(** [scores.forEach(...)] from index [index] on: the first throwing call
    ends the loop. *)
Fixpoint validateScores_from (index : nat) (scores : list jsval) : result unit :=
  match scores with
  | [] => Ok tt
  | score :: rest => _ ← validateScore index score; validateScores_from (S index) rest
  end.

(** [validateScores(scores)] *)
Definition validateScores (scores : jsval) : result unit :=
  match scores with
  | JArray xs =>
      match xs with
      | [] => Err (ValidationError "Scores array cannot be empty")
      | _ => validateScores_from 0 xs
      end
  | _ => Err (ValidationError "Scores must be an array")
  end.

(** The truthiness of [id && typeof id === 'string' && id.trim()]. *)
Definition has_id (id : jsval) : bool :=
  match id with
  | JStr s => truthy id && negb (trims_to_empty s)
  | _ => false
  end.

(** [validateSessionOrUserId(session_id, user_id)] *)
Definition validateSessionOrUserId (session_id user_id : jsval) : result unit :=
  if negb (has_id session_id) && negb (has_id user_id)
  then Err (ValidationError "At least one of session_id or user_id must be provided and non-empty")
  else Ok tt.

(* ------------------------------------------------------------------ *)
(** ** [lib/http.js] and URLs *)
(* ------------------------------------------------------------------ *)

(** [s.startsWith(p)] *)
Definition startsWith (s p : string) : bool := String.prefix p s.

(** [s.includes(p)] *)
Fixpoint includes (s p : string) : bool :=
  String.prefix p s ||
  match s with
  | EmptyString => false
  | String _ r => includes r p
  end.

(** [validateSecureUrl(url)] *)
Definition validateSecureUrl (url : string) : result unit :=
  if startsWith url "http://" then
    if includes url "localhost" || includes url "127.0.0.1" then Ok tt
    else Err (PlainError "HTTP protocol is not allowed for security reasons. Please use HTTPS.")
  else Ok tt.

(** A request as [makeHttpRequest(url, options, timeout)] receives it:
    [body] is the object before [JSON.stringify] ([None]: no body). *)
Record http_request : Type := mkRequest {
  req_url : string;
  req_method : string;
  req_headers : list (string * string);
  req_body : option jsval;
  req_timeout : jsval
}.

(** [makeHttpRequest(url, options, timeout)]: [validateSecureUrl] runs
    inside the promise executor, so its exception rejects the promise;
    otherwise [server] is the network's answer to the request. *)
Definition makeHttpRequest (req : http_request) (server : http_request -> http_outcome)
  : http_outcome :=
  match validateSecureUrl (req_url req) with
  | Err e => RequestFailed e
  | Ok _ => server req
  end.

(** Characters [encodeURIComponent] leaves as they are. *)
Definition is_alnum (c : ascii) : bool :=
  let n := nat_of_ascii c in
  (((48 <=? n) && (n <=? 57)) || ((65 <=? n) && (n <=? 90)) || ((97 <=? n) && (n <=? 122)))%nat.

Definition in_chars (c : ascii) (set : string) : bool :=
  existsb (fun d => if ascii_dec c d then true else false) (list_ascii_of_string set).

Definition hex_digit (n : nat) : ascii :=
  match String.get n "0123456789ABCDEF" with Some d => d | None => "0"%char end.

(** [%XX] for one byte. *)
Definition pct (b : nat) : string :=
  String "%" (String (hex_digit (b / 16)%nat) (String (hex_digit (b mod 16)%nat) EmptyString)).

(** The UTF-8 bytes of a one-byte character, percent-encoded. *)
Definition pct_utf8 (c : ascii) : string :=
  let n := nat_of_ascii c in
  if (n <? 128)%nat then pct n else pct (192 + n / 64)%nat ++ pct (128 + n mod 64)%nat.

(** [encodeURIComponent(s)] *)
Fixpoint encodeURIComponent (s : string) : string :=
  match s with
  | EmptyString => EmptyString
  | String c r =>
      (if is_alnum c || in_chars c "-_.!~*'()" then String c EmptyString else pct_utf8 c)
      ++ encodeURIComponent r
  end.

(** The [application/x-www-form-urlencoded] serializer of
    [URLSearchParams.toString()] for one name or value. *)
Fixpoint form_encode (s : string) : string :=
  match s with
  | EmptyString => EmptyString
  | String c r =>
      (if ascii_dec c " " then "+"
       else if is_alnum c || in_chars c "*-._" then String c EmptyString
       else pct_utf8 c)
      ++ form_encode r
  end.

(** [s.replace(/\/+$/, '')]: the leftmost match of [\/+$] is the whole run
    of slashes at the end of [s]. *)
Fixpoint drop_slashes (r : list ascii) : list ascii :=
  match r with
  | c :: t => if ascii_dec c "/" then drop_slashes t else r
  | [] => []
  end.

Definition normalizeBaseUrl (baseUrl : string) : string :=
  string_of_list_ascii (rev (drop_slashes (rev (list_ascii_of_string baseUrl)))).

(** [JSON.parse(x)] (after the conversion of [x] to a string): the parsed
    value, or the [SyntaxError] it throws.  It is a parameter of the
    functions that call it. *)
Definition json_parser : Type := jsval -> result jsval.

(** [x[i]] *)
Definition get_index (v : jsval) (i : nat) : result jsval :=
  match v with
  | JUndefined | JNull => Err TypeError
  | JArray xs => Ok (default JUndefined (xs !! i))
  | JStr s => Ok (match String.get i s with Some c => JStr (String c EmptyString) | None => JUndefined end)
  | _ => Ok JUndefined
  end.

(** The test [response.statusCode === 200 && parsed.success] shared by the
    API functions. *)
Definition api_accepted (statusCode : Z) (parsed : jsval) : result bool :=
  if Z.eqb statusCode 200
  then success ← get_prop parsed "success"; Ok (truthy success)
  else Ok false.

(** A method call [baseUrl.replace(...)] on the value of [baseUrl]: only a
    string has the method, anything else throws a [TypeError]. *)
Definition string_receiver (v : jsval) : result string :=
  match v with
  | JStr s => Ok s
  | _ => Err TypeError
  end.

(* ------------------------------------------------------------------ *)
(** ** [lib/prompt_utils.js]: the [fetchPrompt] that [index.js] calls *)
(* ------------------------------------------------------------------ *)

Module PromptUtils.

(** [buildPromptUrl(baseUrl, promptName, versionId)] *)
Definition buildPromptUrl (baseUrl promptName : string) (versionId : option string) : string :=
  let params :=
    match versionId with
    | Some v => if truthy (JStr v) then "version_number=" ++ form_encode v else ""
    | None => ""
    end in
  baseUrl ++ "/api/v1/prompts/by-name/" ++ encodeURIComponent promptName ++ "?" ++ params.

(** The request [fetchPrompt] issues. *)
Definition promptRequest (apiKey baseUrl promptName : string) (versionId : option string)
    (timeout : jsval) : http_request :=
  mkRequest (buildPromptUrl baseUrl promptName versionId) "GET"
    [("Authorization", "Bearer " ++ apiKey); ("Content-Type", "application/json")]
    None timeout.

(** [fetchPrompt(apiKey, baseUrl, promptName, versionId, timeout)];
    [parseApiResponse] and [handleApiError] have the same bodies as in
    [lib/prompts.js]. *)
Definition fetchPrompt (JSON_parse : json_parser) (server : http_request -> http_outcome)
    (apiKey baseUrl promptName : string) (versionId : option string) (timeout : jsval)
  : result jsval :=
  match makeHttpRequest (promptRequest apiKey baseUrl promptName versionId timeout) server with
  | RequestFailed _ => Err (NetworkError "Failed to connect to LaikaTest API")
  | Responded statusCode body =>
      parsed ← parseApiResponse body;
      accepted ← api_accepted statusCode parsed;
      if (accepted : bool) then
        d ← get_prop parsed "data";
        c ← get_prop d "content";
        data ← JSON_parse c;
        d' ← get_prop parsed "data";
        type_ ← get_prop d' "type";
        if js_str_is type_ "text" then
          first ← get_index data 0;
          get_prop first "content"
        else Ok data
      else handleApiError statusCode parsed
  end.

End PromptUtils.

(* ------------------------------------------------------------------ *)
(** ** [lib/experiment.js] *)
(* ------------------------------------------------------------------ *)

Module Experiment.

(** [buildExperimentUrl(baseUrl)] *)
Definition buildExperimentUrl (baseUrl : string) : string :=
  normalizeBaseUrl baseUrl ++ "/api/v3/experiments/evaluate".

(** [normalizeContext(context)] *)
Definition normalizeContext (context : jsval) : result jsval :=
  match context with
  | JUndefined => Ok (JObject [])
  | JObject _ => Ok context
  | _ => Err (ValidationError "Context must be a plain object")
  end.

(** [extractPromptContent(promptPayload)] *)
Definition extractPromptContent (JSON_parse : json_parser) (promptPayload : jsval)
  : result jsval :=
  let missing := LaikaServiceError
      (JStr "Malformed experiment response: missing prompt content") 500 promptPayload in
  if negb (truthy promptPayload) then Err missing else
  c ← get_prop promptPayload "content";
  match c with
  | JStr _ =>
    match JSON_parse c with
    | Err _ => Err (LaikaServiceError
                 (JStr "Malformed experiment response: invalid prompt content format")
                 500 promptPayload)
    | Ok parsedContent =>
      type_ ← get_prop promptPayload "type";
      if js_str_is type_ "text" then
        match parsedContent with
        | JArray xs =>
          let first := default JUndefined (xs !! 0%nat) in
          if truthy first then
            fc ← get_prop first "content";
            match fc with
            | JStr _ => Ok fc
            | _ => Ok parsedContent
            end
          else Ok parsedContent
        | _ => Ok parsedContent
        end
      else Ok parsedContent
    end
  | _ => Err missing
  end.

(** [evaluateExperiment(apiKey, baseUrl, experimentTitle, context, timeout)].
    The [Content-Length] header (the byte length of the serialized payload)
    is left out of the modelled request. *)
Definition evaluateExperiment (JSON_parse : json_parser)
    (server : http_request -> http_outcome) (apiKey : string) (baseUrl : jsval)
    (experimentTitle : string) (context timeout : jsval) : result jsval :=
  base ← string_receiver baseUrl;
  let url := buildExperimentUrl base in
  normalizedContext ← normalizeContext context;
  let payload := JObject [("experimentTitle", JStr experimentTitle);
                          ("context", normalizedContext)] in
  let req := mkRequest url "POST"
               [("Authorization", "Bearer " ++ apiKey); ("Content-Type", "application/json")]
               (Some payload) timeout in
  match makeHttpRequest req server with
  | RequestFailed _ => Err (NetworkError "Failed to connect to LaikaTest API")
  | Responded statusCode body =>
    parsed ← parseApiResponse body;
    accepted ← api_accepted statusCode parsed;
    if (accepted : bool) then
      data ← get_prop parsed "data";
      let malformed := LaikaServiceError
          (JStr "Malformed experiment response: missing data") statusCode parsed in
      if negb (truthy data) then Err malformed else
      prompt ← get_prop data "prompt";
      if negb (truthy prompt) then Err malformed else
      expId ← get_prop data "experimentId";
      if negb (truthy expId) then Err malformed else
      bucketId ← get_prop data "bucketId";
      if negb (truthy bucketId) then Err malformed else
      promptContent ← extractPromptContent JSON_parse prompt;
      groupName ← get_prop data "groupName";
      promptType ← get_prop prompt "type";
      promptId ← get_prop prompt "promptId";
      promptVersionId ← get_prop prompt "promptVersionId";
      Ok (JObject [("groupName", groupName); ("promptContent", promptContent);
                   ("promptType", promptType); ("experimentId", expId);
                   ("bucketId", bucketId);
                   ("promptMetadata", JObject [("promptId", promptId);
                                               ("promptVersionId", promptVersionId)])])
    else handleApiError statusCode parsed
  end.

End Experiment.

(* ------------------------------------------------------------------ *)
(** ** [lib/score_utils.js] *)
(* ------------------------------------------------------------------ *)

Module Score.

(** [buildScoreUrl(baseUrl)] *)
Definition buildScoreUrl (baseUrl : string) : string :=
  normalizeBaseUrl baseUrl ++ "/api/v1/score".

(** [requestBody] of [pushScore]. *)
Definition requestBody (sdk_event_id request_id client_version : string)
    (exp_id bucket_id prompt_id scores session_id user_id metadata : jsval) : jsval :=
  let trace_id := request_id in
  JObject [("exp_id", exp_id); ("bucket_id", bucket_id); ("prompt_id", prompt_id);
           ("scores", scores);
           ("session_id", if truthy session_id then session_id else JNull);
           ("user_id", if truthy user_id then user_id else JNull);
           ("metadata", if truthy metadata then metadata else JObject []);
           ("source", JStr "sdk"); ("client_version", JStr client_version);
           ("sdk_event_id", JStr sdk_event_id); ("request_id", JStr request_id);
           ("trace_id", JStr trace_id)].

(** [pushScore(apiKey, baseUrl, exp_id, bucket_id, prompt_id, scores,
    session_id, user_id, metadata, timeout)].  The two [generateUUID()]
    results and [getClientVersion()] are the first three arguments; the
    [Content-Length] header is left out of the modelled request. *)
Definition pushScore (sdk_event_id request_id client_version : string)
    (server : http_request -> http_outcome) (apiKey : string) (baseUrl : jsval)
    (exp_id bucket_id prompt_id scores session_id user_id metadata timeout : jsval)
  : result jsval :=
  let body := requestBody sdk_event_id request_id client_version
                exp_id bucket_id prompt_id scores session_id user_id metadata in
  base ← string_receiver baseUrl;
  let req := mkRequest (buildScoreUrl base) "POST"
               [("Authorization", "Bearer " ++ apiKey); ("Content-Type", "application/json")]
               (Some body) timeout in
  match makeHttpRequest req server with
  | RequestFailed _ => Err (NetworkError "Failed to push score to LaikaTest API")
  | Responded statusCode rbody =>
    parsed ← parseApiResponse rbody;
    accepted ← api_accepted statusCode parsed;
    if (accepted : bool) then
      data ← get_prop parsed "data";
      Ok (JObject [("success", JBool true); ("statusCode", JNum statusCode);
                   ("data", data); ("sdk_event_id", JStr sdk_event_id);
                   ("request_id", JStr request_id)])
    else handleApiError statusCode parsed
  end.

End Score.

(* ------------------------------------------------------------------ *)
(** ** [index.js]: the [LaikaTest] constructor and the experiment API *)
(* ------------------------------------------------------------------ *)

(** The fields the constructor sets; [cfg_cacheTTL] is the TTL given to
    [new PromptCache], [None] when [this.cache] is [null]. *)
Record LaikaConfig : Type := mkConfig {
  cfg_apiKey : string;
  cfg_baseUrl : jsval;
  cfg_timeout : jsval;
  cfg_cacheEnabled : bool;
  cfg_cacheTTL : option jsval
}.

(** [new LaikaTest(apiKey, options = {})] *)
Definition new_LaikaTest (apiKey options : jsval) : result LaikaConfig :=
  key ← validateApiKey apiKey;
  let opts := match options with JUndefined => JObject [] | o => o end in
  baseUrl ← get_prop opts "baseUrl";
  timeout ← get_prop opts "timeout";
  cacheTTL ← get_prop opts "cacheTTL";
  cacheEnabled_ ← get_prop opts "cacheEnabled";
  let ttl_ := match cacheTTL with JUndefined => JNum 1800000 | v => v end in
  let enabled := match cacheEnabled_ with JBool false => false | _ => true end in
  Ok (mkConfig key
        (if truthy baseUrl then baseUrl else JStr "https://api.laikatest.com")
        (if truthy timeout then timeout else JNum 10000)
        enabled
        (if enabled then Some ttl_ else None)).

(** [LaikaTest.pushScore(exp_id, bucket_id, prompt_version_id, scores,
    session_id, user_id)]: it calls the ten-parameter [pushScoreUtil] with
    nine arguments, [this.timeout] last. *)
Definition client_pushScore (sdk_event_id request_id client_version : string)
    (server : http_request -> http_outcome) (cfg : LaikaConfig)
    (exp_id bucket_id prompt_version_id scores session_id user_id : jsval) : result jsval :=
  Score.pushScore sdk_event_id request_id client_version server
    (cfg_apiKey cfg) (cfg_baseUrl cfg)
    exp_id bucket_id prompt_version_id scores session_id user_id (cfg_timeout cfg) JUndefined.

(** A [Prompt] built by [getExperimentPrompt] (lib/prompt.js). *)
Record ScorablePrompt : Type := mkScorable {
  sp_content : jsval;
  sp_promptVersionId : jsval;
  sp_experimentId : jsval;
  sp_bucketId : jsval;
  sp_client : option LaikaConfig;
  sp_promptId : jsval
}.

(** [getExperimentPrompt(experimentTitle, context = {})] *)
Definition getExperimentPrompt (JSON_parse : json_parser)
    (server : http_request -> http_outcome) (cfg : LaikaConfig)
    (experimentTitle context : jsval) : result ScorablePrompt :=
  title ← validateExperimentTitle experimentTitle;
  let ctx := match context with JUndefined => JObject [] | c => c end in
  res ← Experiment.evaluateExperiment JSON_parse server (cfg_apiKey cfg) (cfg_baseUrl cfg)
          title ctx (cfg_timeout cfg);
  promptContent ← get_prop res "promptContent";
  meta ← get_prop res "promptMetadata";
  promptVersionId ← get_prop meta "promptVersionId";
  expId ← get_prop res "experimentId";
  bucketId ← get_prop res "bucketId";
  promptId ← get_prop meta "promptId";
  Ok (mkScorable promptContent promptVersionId expId bucketId (Some cfg) promptId).

(** [Prompt.pushScore(scores, options = {})]; the [console.error] lines
    are not modelled. *)
Definition prompt_pushScore (sdk_event_id request_id client_version : string)
    (server : http_request -> http_outcome) (p : ScorablePrompt) (scores options : jsval)
  : result jsval :=
  if negb (truthy (sp_experimentId p)) || negb (truthy (sp_bucketId p))
     || negb (truthy (sp_promptVersionId p)) then
    Ok (JObject [("success", JBool false);
                 ("error", JStr "Cannot push score: This prompt is not from an experiment. Use getExperimentPrompt() to get a scorable prompt.");
                 ("errorType", JStr "ValidationError")])
  else
  match sp_client p with
  | None =>
    Ok (JObject [("success", JBool false);
                 ("error", JStr "Cannot push score: Client reference not available.");
                 ("errorType", JStr "ValidationError")])
  | Some cfg =>
    let opts := match options with JUndefined => JObject [] | o => o end in
    s ← get_prop opts "session_id";
    u ← get_prop opts "user_id";
    let session_id := match s with JUndefined => JNull | v => v end in
    let user_id := match u with JUndefined => JNull | v => v end in
    client_pushScore sdk_event_id request_id client_version server cfg
      (sp_experimentId p) (sp_bucketId p) (sp_promptVersionId p) scores session_id user_id
  end.

(** [Prompt.compile(variables)]: a new [Prompt] with the content passed
    through [injectVariables] and the other constructor arguments copied.
    [injectVariables] comes from [./variables], which is not part of the
    sources here, so it is a parameter; it may throw. *)
Definition compile (injectVariables : jsval -> jsval -> result jsval)
    (p : ScorablePrompt) (variables : jsval) : result ScorablePrompt :=
  c ← injectVariables (sp_content p) variables;
  Ok (mkScorable c (sp_promptVersionId p) (sp_experimentId p) (sp_bucketId p)
        (sp_client p) (sp_promptId p)).

(* ================================================================== *)
(** * Properties *)
(* ================================================================== *)

(** ** String helpers *)

Lemma str_app_nil (b : string) : "" ++ b = b.
Proof. reflexivity. Qed.

Lemma str_app_cons (c : ascii) (a b : string) :
  String c a ++ b = String c (a ++ b).
Proof. reflexivity. Qed.

Lemma str_length_app (a b : string) :
  String.length (a ++ b) = (String.length a + String.length b)%nat.
Proof.
  induction a as [|c a IH]; [reflexivity|].
  rewrite str_app_cons. simpl. rewrite IH. reflexivity.
Qed.

Lemma str_app_not_self (a b : string) : b <> "" -> a ++ b <> a.
Proof.
  intros Hb H. apply (f_equal String.length) in H.
  rewrite str_length_app in H. destruct b; [done|]. simpl in H. lia.
Qed.

Lemma truthy_str (s : string) : truthy (JStr s) = true <-> s <> "".
Proof.
  simpl. destruct (String.eqb_spec s ""); simpl; split; congruence.
Qed.

(** ** The TTL cache *)

(** A freshly stored entry is read back, or expired and deleted, according
    to the elapsed time alone. *)
Lemma cache_fetch_store (c : PromptCache) (key : string) (v : jsval) (t0 t1 : Z) :
  cache_fetch (cache_store c key v t0) key t1 =
  if Z.leb (t1 - t0) (ttl c)
  then (Some v, cache_store c key v t0)
  else (None, mkCache (delete key (cache c)) (ttl c)).
Proof.
  unfold cache_fetch, cache_store. simpl.
  rewrite lookup_insert_eq. simpl.
  destruct (Z.leb_spec (t1 - t0) (ttl c)) as [Hle|Hgt].
  - replace (Z.gtb (t1 - t0) (ttl c)) with false; [reflexivity|].
    symmetry. rewrite Z.gtb_ltb. apply Z.ltb_ge. lia.
  - replace (Z.gtb (t1 - t0) (ttl c)) with true.
    + rewrite delete_insert_eq. reflexivity.
    + symmetry. rewrite Z.gtb_ltb. apply Z.ltb_lt. lia.
Qed.

(** C1: for every TTL [t], after [set] stores a value at time [t0], [get]
    of the same key at [t1] returns that value when [t1 - t0 <= t], and
    returns absent ([null]) when [t1 - t0 > t], deleting the entry. *)
Theorem cache_get_after_set (c : PromptCache) (projectId promptName : string)
    (versionId : option string) (v : jsval) (t0 t1 : Z) :
  LibCache.get (LibCache.set c projectId promptName versionId v t0)
    projectId promptName versionId t1 =
  if Z.leb (t1 - t0) (ttl c)
  then (Some v, LibCache.set c projectId promptName versionId v t0)
  else (None, mkCache (delete (LibCache.generateKey projectId promptName versionId)
                               (cache c)) (ttl c)).
Proof. apply cache_fetch_store. Qed.

(** C3 (counterexample): with [ttl = 0] a [get] at the same millisecond as
    the [set] is a hit, not a miss. *)
Lemma cache_ttl_zero_same_instant_hits :
  fst (LibCache.get (LibCache.set (new_cache 0) "proj" "greeting" None (JStr "hi") 1000)
         "proj" "greeting" None 1000) = Some (JStr "hi").
Proof. reflexivity. Qed.

(** C3 (amended): with [ttl = 0], a [get] misses (and deletes the entry)
    exactly when it happens strictly after the [set]; a [get] at the same
    or an earlier timestamp returns the stored value. *)
Theorem cache_ttl_zero_get (c : PromptCache) (projectId promptName : string)
    (versionId : option string) (v : jsval) (t0 t1 : Z) :
  ttl c = 0 ->
  LibCache.get (LibCache.set c projectId promptName versionId v t0)
    projectId promptName versionId t1 =
  if Z.ltb t0 t1
  then (None, mkCache (delete (LibCache.generateKey projectId promptName versionId) (cache c))
                      (ttl c))
  else (Some v, LibCache.set c projectId promptName versionId v t0).
Proof.
  intros H0. unfold LibCache.get, LibCache.set.
  rewrite cache_fetch_store, H0.
  destruct (Z.ltb_spec t0 t1), (Z.leb_spec (t1 - t0) 0); simpl; try reflexivity; lia.
Qed.

(** Witness: a one-millisecond-later read misses with [ttl = 0], and the
    entry is gone afterwards. *)
Lemma cache_ttl_zero_get_witness :
  LibCache.get (LibCache.set (new_cache 0) "proj" "greeting" None (JStr "hi") 1000)
    "proj" "greeting" None 1001 = (None, new_cache 0).
Proof.
  rewrite (cache_ttl_zero_get (new_cache 0) "proj" "greeting" None (JStr "hi") 1000 1001 eq_refl).
  simpl. rewrite delete_empty. reflexivity.
Defined.

(** C8 (counterexample): an empty-string version and no version share one
    cache key. *)
Lemma generateKey_empty_version_collides :
  ClientCache.generateKey "greeting" (Some "") = ClientCache.generateKey "greeting" None /\
  LibCache.generateKey "proj" "greeting" (Some "") = LibCache.generateKey "proj" "greeting" None.
Proof. split; reflexivity. Qed.

(** C8 (amended): for a fixed prompt name (and project), [generateKey] is
    injective on non-empty version strings together with the no-version
    case: two distinct non-empty versions give distinct keys and no version
    differs from every non-empty version; an empty-string version is falsy
    and shares the no-version key.  This holds for both cache modules. *)
Theorem generateKey_versions_distinct (projectId promptName : string)
    (v1 v2 : option string) :
  (forall s, v1 = Some s -> s <> "") ->
  (forall s, v2 = Some s -> s <> "") ->
  v1 <> v2 ->
  ClientCache.generateKey promptName v1 <> ClientCache.generateKey promptName v2 /\
  LibCache.generateKey projectId promptName v1 <> LibCache.generateKey projectId promptName v2.
Proof.
  intros H1 H2 Hne.
  destruct v1 as [s1|], v2 as [s2|]; try congruence;
    repeat match goal with
    | H : forall s, Some ?x = Some s -> s <> "" |- _ =>
        let Hx := fresh in assert (Hx : x <> "") by (apply H; reflexivity);
        clear H; apply truthy_str in Hx
    end;
    unfold ClientCache.generateKey, LibCache.generateKey;
    repeat match goal with H : truthy _ = true |- _ => rewrite H; clear H end.
  - split; intros Heq.
    + apply (inj (String.app promptName)), (inj (String.app ":")) in Heq. congruence.
    + apply (inj (String.app projectId)), (inj (String.app ":")),
        (inj (String.app promptName)), (inj (String.app ":")) in Heq. congruence.
  - split; intros Heq.
    + revert Heq. apply str_app_not_self. discriminate.
    + apply (inj (String.app projectId)), (inj (String.app ":")) in Heq.
      revert Heq. apply str_app_not_self. discriminate.
  - split; intros Heq; symmetry in Heq.
    + revert Heq. apply str_app_not_self. discriminate.
    + apply (inj (String.app projectId)), (inj (String.app ":")) in Heq.
      revert Heq. apply str_app_not_self. discriminate.
Qed.

(** Witness: versions ["10"] and ["11"] of one prompt get distinct keys. *)
Lemma generateKey_versions_distinct_witness :
  ClientCache.generateKey "greeting" (Some "10") <> ClientCache.generateKey "greeting" (Some "11").
Proof.
  apply (generateKey_versions_distinct "proj" "greeting" (Some "10") (Some "11"));
    [intros s [= <-]; discriminate | intros s [= <-]; discriminate | discriminate].
Defined.

(** ** Validation *)


Lemma validateVersionId_error (v : jsval) (e : js_error) :
  validateVersionId v = Err e -> exists m, e = ValidationError m.
Proof.
  unfold validateVersionId. destruct (negb (truthy v)); [discriminate|].
  destruct v; try (intros [= <-]; eauto).
  destruct (128 <? String.length s)%nat; [intros [= <-]; eauto|].
  destruct (version_regex s); intros [= <-]; eauto.
Qed.

(** ** Fetching *)





(** ** Versions and the prompt cache in [getPrompt] *)

Example validateVersionId_v10 : validateVersionId (JStr "v10") = Ok (Some "10").
Proof. reflexivity. Qed.

Example validateVersionId_bad : validateVersionId (JStr "1.0") =
  Err (ValidationError version_format_message).
Proof. reflexivity. Qed.

(** C9 (counterexample): the empty string is a string that does not match
    [v?\d+], yet it is accepted (as no version). *)
Lemma validateVersionId_accepts_empty_string :
  validateVersionId (JStr "") = Ok None /\ version_regex "" = false.
Proof. split; reflexivity. Qed.

Lemma js_field_snoc_eq (fields : list (string * jsval)) (k : string) (v : jsval) :
  js_field (fields ++ [(k, v)]) k = v.
Proof. unfold js_field. rewrite fold_left_app. simpl. rewrite String.eqb_refl. reflexivity. Qed.

Lemma js_field_snoc_ne (fields : list (string * jsval)) (k k' : string) (v : jsval) :
  k' <> k -> js_field (fields ++ [(k, v)]) k' = js_field fields k'.
Proof.
  intros H. unfold js_field. rewrite fold_left_app. simpl.
  rewrite String.eqb_sym. apply String.eqb_neq in H. rewrite H. reflexivity.
Qed.

(** [getPrompt] sees [options.versionId] only through [validateVersionId]. *)
Lemma getPrompt_version_congr (client : LaikaTest)
    (fetch : string -> option string -> result jsval)
    (pn : jsval) (fields : list (string * jsval)) (a b : jsval) (t1 t2 : Z) :
  validateVersionId a = validateVersionId b ->
  getPrompt client fetch pn (JObject (fields ++ [("versionId", a)])) t1 t2 =
  getPrompt client fetch pn (JObject (fields ++ [("versionId", b)])) t1 t2.
Proof.
  intros H. unfold getPrompt, get_prop.
  rewrite !js_field_snoc_eq, H, !(js_field_snoc_ne fields "versionId" "bypassCache") by discriminate.
  reflexivity.
Qed.

(** C9 (amended): [validateVersionId] accepts exactly the falsy values
    (undefined, null, the empty string, ...: no version) and the strings of
    at most 128 characters matching [v?\d+], returning the string without
    its leading [v]; anything else raises [ValidationError].  Hence, for a
    digit string [d], [getPrompt] with [options.versionId] ["v" ++ d] and
    with [d] behaves identically: same result, same cache entry, same
    remote fetch. *)
Theorem validateVersionId_accepts (v : jsval) :
  (forall r : option string,
     validateVersionId v = Ok r <->
     (truthy v = false /\ r = None) \/
     (exists s, v = JStr s /\ (String.length s <= 128)%nat /\
                version_regex s = true /\ r = Some (strip_v s))) /\
  (forall e : js_error, validateVersionId v = Err e -> exists m, e = ValidationError m) /\
  (forall d : string, digits1 d = true -> (String.length d < 128)%nat ->
     validateVersionId (JStr (String "v" d)) = Ok (Some d) /\
     validateVersionId (JStr d) = Ok (Some d) /\
     forall (client : LaikaTest) (fetch : string -> option string -> result jsval)
            (pn : jsval) (fields : list (string * jsval)) (t1 t2 : Z),
       getPrompt client fetch pn (JObject (fields ++ [("versionId", JStr (String "v" d))])) t1 t2 =
       getPrompt client fetch pn (JObject (fields ++ [("versionId", JStr d)])) t1 t2).
Proof.
  split; [|split; [apply validateVersionId_error|]].
  - intros r. unfold validateVersionId. split.
    + destruct (truthy v) eqn:Ht; simpl.
      * destruct v; try discriminate.
        destruct (Nat.ltb_spec 128 (String.length s)); [discriminate|].
        destruct (version_regex s) eqn:Hr; [|discriminate].
        intros [= <-]. right. exists s. repeat split; auto.
      * intros [= <-]. left. auto.
    + intros [[Ht ->] | (s & -> & Hl & Hr & ->)].
      * rewrite Ht. reflexivity.
      * destruct (truthy (JStr s)) eqn:Ht; simpl.
        -- destruct (Nat.ltb_spec 128 (String.length s)); [lia|].
           rewrite Hr. reflexivity.
        -- exfalso. destruct s; [discriminate|]. simpl in Ht. discriminate.
  - intros d Hd Hl.
    assert (Hd' : d <> "") by (destruct d; [discriminate|]; discriminate).
    assert (Hv : validateVersionId (JStr d) = Ok (Some d)).
    { unfold validateVersionId.
      replace (truthy (JStr d)) with true by (symmetry; apply truthy_str; auto).
      simpl. destruct (Nat.ltb_spec 128 (String.length d)); [lia|].
      destruct d as [|c r]; [discriminate|].
      unfold version_regex, strip_v.
      destruct (ascii_dec c "v") as [->|Hc]; [discriminate|]. rewrite Hd. reflexivity. }
    assert (Hvv : validateVersionId (JStr (String "v" d)) = Ok (Some d)).
    { unfold validateVersionId. simpl.
      destruct (Nat.ltb_spec 128 (S (String.length d))); [lia|].
      rewrite Hd. reflexivity. }
    split; [exact Hvv|]. split; [exact Hv|].
    intros. apply getPrompt_version_congr. rewrite Hvv, Hv. reflexivity.
Qed.

(** Witness: the theorem at version ["v10"] versus ["10"]. *)
Lemma validateVersionId_accepts_witness :
  validateVersionId (JStr "v10") = Ok (Some "10") /\ validateVersionId (JStr "10") = Ok (Some "10").
Proof.
  destruct (validateVersionId_accepts JUndefined) as (_ & _ & H).
  destruct (H "10") as (H1 & H2 & _); [reflexivity | simpl; lia |].
  split; [exact H1 | exact H2].
Defined.

(** [fetch_and_store] keeps every entry [undefined]. *)
Lemma fetch_and_store_undefined (client : LaikaTest) (c1 : PromptCache)
    (fetch : string -> option string -> result jsval)
    (name : string) (versionId : option string) (t_set : Z) :
  entries_undefined c1 ->
  let '(r, client', calls) := fetch_and_store client c1 fetch name versionId t_set in
  calls = [(name, versionId)] /\
  r = match fetch name versionId with Ok x => Ok (mkPrompt x) | Err e => Err e end /\
  entries_undefined (prompt_cache client') /\ cacheEnabled client' = cacheEnabled client.
Proof.
  intros Hc. unfold fetch_and_store.
  destruct (fetch name versionId) as [x|e]; simpl; [|auto].
  repeat split. destruct (cacheEnabled client); [|exact Hc].
  unfold LibCache.set_js, cache_store, entries_undefined. simpl.
  apply map_Forall_insert_2; [reflexivity | exact Hc].
Qed.

(** [getPrompt] from a cache holding only [undefined] entries. *)
Lemma getPrompt_undefined_cache (client : LaikaTest)
    (fetch : string -> option string -> result jsval)
    (pn : jsval) (fields : list (string * jsval)) (t_get t_set : Z)
    (name : string) (versionId : option string) :
  validatePromptName pn = Ok name ->
  validateVersionId (js_field fields "versionId") = Ok versionId ->
  entries_undefined (prompt_cache client) ->
  let '(r, client', calls) := getPrompt client fetch pn (JObject fields) t_get t_set in
  calls = [(name, versionId)] /\
  r = match fetch name versionId with Ok x => Ok (mkPrompt x) | Err e => Err e end /\
  entries_undefined (prompt_cache client') /\ cacheEnabled client' = cacheEnabled client.
Proof.
  intros Hn Hv Hc. unfold getPrompt, get_prop. rewrite Hn, Hv.
  destruct (cacheEnabled client && _); [|apply fetch_and_store_undefined; exact Hc].
  unfold LibCache.get_js, cache_fetch.
  destruct (cache (prompt_cache client) !! _) as [e|] eqn:Hk;
    [|apply fetch_and_store_undefined; exact Hc].
  destruct (Z.gtb _ _).
  - apply fetch_and_store_undefined. unfold entries_undefined. simpl.
    apply map_Forall_delete. exact Hc.
  - rewrite (Hc _ _ Hk). apply fetch_and_store_undefined. exact Hc.
Qed.

(** C10 (the cache never serves [getPrompt]): [index.js] calls the
    three-key cache of [lib/cache.js] with one argument fewer, so [set]
    stores [undefined] as the content (under ["name:version:content"]) and
    [get] reads ["name:version"].  From a cache whose entries are all
    [undefined] (a new client's empty cache, say), every [getPrompt] of a
    valid name and version calls [fetchPrompt] exactly once and returns what
    it fetched, and the cache it leaves behind again has only [undefined]
    entries.  Falsy entries are indeed refetched; a truthy cached value is
    never produced, so no [getPrompt] is ever answered from the cache. *)
Theorem getPrompt_cache_never_serves (client : LaikaTest)
    (fetch : string -> option string -> result jsval)
    (pn : jsval) (fields : list (string * jsval)) (t_get t_set : Z)
    (name : string) (versionId : option string) :
  validatePromptName pn = Ok name ->
  validateVersionId (js_field fields "versionId") = Ok versionId ->
  entries_undefined (prompt_cache client) ->
  let '(r, client', calls) := getPrompt client fetch pn (JObject fields) t_get t_set in
  calls = [(name, versionId)] /\
  r = match fetch name versionId with Ok x => Ok (mkPrompt x) | Err e => Err e end /\
  entries_undefined (prompt_cache client') /\ cacheEnabled client' = cacheEnabled client.
Proof. apply getPrompt_undefined_cache. Qed.

(** Witness: a new client fetches ['greeting'] (the server answers
    ['Hello']), and a second [getPrompt('greeting')] one second later, well
    within the TTL, fetches it again. *)
Lemma getPrompt_cache_never_serves_witness :
  let '(r1, client1, calls1) :=
    getPrompt (mkLaikaTest true (new_cache 1800000)) (fun _ _ => Ok (JStr "Hello"))
      (JStr "greeting") (JObject []) 1000 1000 in
  let '(r2, client2, calls2) :=
    getPrompt client1 (fun _ _ => Ok (JStr "Hello")) (JStr "greeting") (JObject []) 2000 2000 in
  r1 = Ok (mkPrompt (JStr "Hello")) /\ calls1 = [("greeting", None)] /\
  r2 = Ok (mkPrompt (JStr "Hello")) /\ calls2 = [("greeting", None)].
Proof.
  pose proof (getPrompt_cache_never_serves (mkLaikaTest true (new_cache 1800000))
                (fun _ _ => Ok (JStr "Hello")) (JStr "greeting") [] 1000 1000 "greeting" None
                eq_refl eq_refl ltac:(intros k e Hk; vm_compute in Hk; discriminate)) as H1.
  destruct (getPrompt _ _ _ _ 1000 1000) as [[r1 client1] calls1].
  destruct H1 as (Hc1 & Hr1 & Hu1 & _).
  pose proof (getPrompt_cache_never_serves client1
                (fun _ _ => Ok (JStr "Hello")) (JStr "greeting") [] 2000 2000 "greeting" None
                eq_refl eq_refl Hu1) as H2.
  destruct (getPrompt client1 _ _ _ 2000 2000) as [[r2 client2] calls2].
  destruct H2 as (Hc2 & Hr2 & _).
  repeat split; assumption.
Defined.

(** ** Ambient context *)

Example properties_leak_example :
  snd (exec_seq exec [CRunWithContext [CSetSessionId "S"; CSetProperty "a" (PNum 1)];
                      CRunWithContext [CObserve]] init_state)
  = [(None, None, {[ "a" := PNum 1 ]})].
Proof. reflexivity. Qed.

Lemma ids_of_app (o1 o2 : list observation) :
  ids_of (o1 ++ o2)%list = (ids_of o1 ++ ids_of o2)%list.
Proof. apply map_app. Qed.

(** The session/user observations of a statement, and the store it leaves,
    depend on the current store only (not on the properties map). *)
Lemma exec_ids_store_only (c : cmd) :
  forall st st' : otel_state, als_store st = als_store st' ->
  ids_of (snd (exec c st)) = ids_of (snd (exec c st')) /\
  als_store (fst (exec c st)) = als_store (fst (exec c st')).
Proof.
  revert c. fix IH 1. intros c st st' Hs.
  destruct c as [s| |u| |k v|props| |k| |body]; simpl;
    unfold setSessionId, clearSessionId, setUserId, clearUserId, getSessionId, getUserId,
      getContext, setProperty, clearProperties, removeProperty in *; simpl;
    try (destruct (als_store st) eqn:E1; destruct (als_store st') eqn:E2;
         simpl; split; congruence).
  - split; [reflexivity|]. unfold setProperties.
    revert st st' Hs. induction props as [|kv props IHp]; intros st st' Hs; [exact Hs|].
    simpl. apply IHp. exact Hs.
  - set (s0 := mkOtel (Some (mkCtx None None)) (properties st)).
    set (s0' := mkOtel (Some (mkCtx None None)) (properties st')).
    assert (Hb : ids_of (snd (exec_seq exec body s0)) = ids_of (snd (exec_seq exec body s0'))).
    { assert (H0 : als_store s0 = als_store s0') by reflexivity.
      clearbody s0 s0'. revert s0 s0' H0.
      induction body as [|c body IHb]; intros s0 s0' H0; [reflexivity|].
      simpl.
      destruct (IH c s0 s0' H0) as [Ho Hst].
      destruct (exec c s0) as [s1 o1], (exec c s0') as [s1' o1']. simpl in Ho, Hst.
      specialize (IHb s1 s1' Hst).
      destruct (exec_seq exec body s1) as [s2 o2], (exec_seq exec body s1') as [s2' o2'].
      simpl in IHb |- *. rewrite !ids_of_app, Ho, IHb. reflexivity. }
    destruct (exec_seq exec body s0) as [s2 o2], (exec_seq exec body s0') as [s2' o2'].
    simpl in Hb |- *. split; [exact Hb | exact Hs].
Qed.

(** C2 (counterexample): a property set inside one [runWithContext] scope
    is visible in the next one. *)
Lemma runWithContext_property_leak :
  snd (exec (CRunWithContext [CObserve])
         (fst (exec (CRunWithContext [CSetProperty "a" (PNum 1)]) init_state)))
  = [(None, None, {[ "a" := PNum 1 ]})].
Proof. reflexivity. Qed.

(** C2 (amended): for two [runWithContext] scopes run one after the other,
    the session and user ids observed in the second do not depend on the
    first at all (they are those of running the second scope alone), and the
    second scope starts with [sessionId = null] and [userId = null].  Custom
    properties are not scoped: the second scope starts with the module-level
    properties map as the first scope left it. *)
Theorem runWithContext_isolation (st : otel_state) (b1 b2 : list cmd) :
  let st1 := fst (exec (CRunWithContext b1) st) in
  ids_of (snd (exec (CRunWithContext b2) st1)) = ids_of (snd (exec (CRunWithContext b2) st)) /\
  head (snd (exec (CRunWithContext (CObserve :: b2)) st1)) = Some (None, None, properties st1).
Proof.
  intros st1. split.
  - apply (exec_ids_store_only (CRunWithContext b2)). subst st1. simpl.
    destruct (exec_seq exec b1 _). reflexivity.
  - simpl. destruct (exec_seq exec b2 _). reflexivity.
Qed.

(** C7 (counterexample): outside any scope, [setProperty] is not a no-op:
    it writes the module-level map, and [getProperties] returns it. *)
Lemma setProperty_outside_scope_writes :
  snd (exec_seq exec [CSetProperty "env" (PStr "prod"); CObserve] init_state)
  = [(None, None, {[ "env" := PStr "prod" ]})].
Proof. reflexivity. Qed.

(** C7 (amended): outside any [runWithContext] extent, [setSessionId],
    [setUserId], [clearSessionId] and [clearUserId] leave the state
    unchanged, and [getSessionId] / [getUserId] return [null]; none of the
    context functions throws (they are total).  The property functions are
    not scoped: [setProperty] and [setProperties] write the module-level
    map, and [getProperties] returns its current contents. *)
Theorem context_outside_scope (st : otel_state) :
  als_store st = None ->
  (forall s, setSessionId s st = st) /\ (forall u, setUserId u st = st) /\
  clearSessionId st = st /\ clearUserId st = st /\
  getSessionId st = None /\ getUserId st = None /\
  (forall k v, setProperty k v st = mkOtel None (<[k := v]> (properties st))) /\
  (forall props, setProperties props st =
     mkOtel None (fold_left (fun m kv => <[kv.1 := kv.2]> m) props (properties st))) /\
  getProperties st = properties st.
Proof.
  destruct st as [store props0]. simpl. intros ->.
  unfold setSessionId, setUserId, clearSessionId, clearUserId, getSessionId, getUserId,
    getContext, setProperty, setProperties, getProperties; simpl.
  repeat split.
  intros props. revert props0. induction props as [|kv props IH]; intros props0; [reflexivity|].
  simpl. apply IH.
Qed.

(** Witness: the theorem in the initial state. *)
Lemma context_outside_scope_witness :
  setSessionId "S" init_state = init_state /\ getSessionId init_state = None.
Proof.
  destruct (context_outside_scope init_state eq_refl) as (H1 & _ & _ & _ & H5 & _).
  split; [apply H1 | exact H5].
Defined.

(** ** Span enrichment *)

Lemma property_key_ne (k key : string) :
  key = "laika.session.id" \/ key = "laika.user.id" \/ key = "laika.experiment.id" \/
  key = "laika.experiment.variant_id" \/ key = "laika.experiment.user_id" ->
  key <> "laika.property." ++ k.
Proof.
  intros Hk H. cbv [String.append] in H.
  destruct Hk as [H'|[H'|[H'|[H'|H']]]]; rewrite H' in H; discriminate H.
Qed.

Lemma inject_properties_log (l : list (string * pv)) (sp : span_state) :
  console_log (inject_properties l sp) = console_log sp.
Proof.
  unfold inject_properties.
  revert sp. induction l as [|kv l IH]; intros sp; [reflexivity|].
  simpl. rewrite IH. reflexivity.
Qed.

Lemma inject_properties_other (l : list (string * pv)) (sp : span_state) (key : string) :
  (forall k, key <> "laika.property." ++ k) ->
  attributes (inject_properties l sp) !! key = attributes sp !! key.
Proof.
  intros Hk. revert sp. induction l as [|[k v] l IH]; intros sp; [reflexivity|].
  simpl. rewrite IH. simpl. apply lookup_insert_ne. intros H. apply (Hk k). done.
Qed.

Lemma inject_properties_lookup (l : list (string * pv)) (sp : span_state) (k : string) :
  NoDup l.*1 ->
  attributes (inject_properties l sp) !! ("laika.property." ++ k) =
  match (list_to_map l : gmap string pv) !! k with
  | Some v => Some v
  | None => attributes sp !! ("laika.property." ++ k)
  end.
Proof.
  revert sp. induction l as [|[k' v'] l IH]; intros sp Hnd; [reflexivity|].
  simpl in Hnd |- *. apply NoDup_cons in Hnd as [Hnin Hnd].
  rewrite IH by exact Hnd. simpl.
  destruct (decide (k = k')) as [->|Hne].
  - rewrite (lookup_insert_eq (list_to_map l : gmap string pv)).
    rewrite not_elem_of_list_to_map_1 by exact Hnin.
    rewrite lookup_insert_eq. reflexivity.
  - rewrite (lookup_insert_ne (list_to_map l : gmap string pv)) by congruence.
    destruct ((list_to_map l : gmap string pv) !! k); [reflexivity|].
    apply lookup_insert_ne. intros H. apply Hne. symmetry. exact (inj _ _ _ H).
Qed.

Lemma getExperimentContext_span (collab : collaborator) (sp : span_state) :
  snd (getExperimentContext collab sp) = sp.
Proof.
  unfold getExperimentContext.
  destruct collab as [|e|[|[exp|e]]]; reflexivity.
Qed.

Lemma inject_experiment_log (collab : collaborator) (sp : span_state) :
  console_log (inject_experiment collab sp) = console_log sp.
Proof.
  unfold inject_experiment.
  pose proof (getExperimentContext_span collab sp) as Hs.
  destruct (getExperimentContext collab sp) as [[e|] sp']; simpl in Hs; subst sp';
    [destruct (truthy_opt_str (exp_userId e))|]; reflexivity.
Qed.

Lemma inject_experiment_other (collab : collaborator) (sp : span_state) (key : string) :
  key <> "laika.experiment.id" -> key <> "laika.experiment.variant_id" ->
  key <> "laika.experiment.user_id" ->
  attributes (inject_experiment collab sp) !! key = attributes sp !! key.
Proof.
  intros H1 H2 H3. unfold inject_experiment.
  pose proof (getExperimentContext_span collab sp) as Hs.
  destruct (getExperimentContext collab sp) as [[e|] sp']; simpl in Hs; subst sp';
    [|reflexivity].
  destruct (truthy_opt_str (exp_userId e)); simpl;
    rewrite ?lookup_insert_ne by congruence; reflexivity.
Qed.

Lemma inject_session_log (st : otel_state) (sp : span_state) :
  console_log (inject_session st sp) = console_log sp.
Proof.
  unfold inject_session. destruct (getSessionId st) as [s|]; [destruct (truthy (JStr s))|];
    reflexivity.
Qed.

Lemma inject_user_log (st : otel_state) (sp : span_state) :
  console_log (inject_user st sp) = console_log sp.
Proof.
  unfold inject_user. destruct (getUserId st) as [u|]; [destruct (truthy (JStr u))|];
    reflexivity.
Qed.

(** C4 (code as written): [onStart] never throws, for every state of the
    experiment-assignment collaborator (missing module, failing [require],
    no probe, probe returning or throwing), and it never writes to the
    console: an unexpected error thrown by the probe is swallowed without
    being logged. *)
Theorem onStart_never_throws_silently (st : otel_state) (collab : collaborator)
    (sp : span_state) :
  exists sp', onStart st collab sp = Ok sp' /\ console_log sp' = console_log sp.
Proof.
  eexists. split; [reflexivity|].
  rewrite inject_experiment_log, inject_properties_log, inject_user_log, inject_session_log.
  reflexivity.
Qed.

(** C5 (counterexample): an ambient session id that is the empty string is
    non-null, yet no session attribute is attached. *)
Lemma onStart_empty_session_dropped :
  getSessionId (mkOtel (Some (mkCtx (Some "") None)) ∅) = Some "" /\
  onStart (mkOtel (Some (mkCtx (Some "") None)) ∅) ModuleMissing (mkSpan ∅ [])
  = Ok (mkSpan ∅ []).
Proof. split; reflexivity. Qed.

Lemma inject_session_other (st : otel_state) (sp : span_state) (key : string) :
  key <> "laika.session.id" ->
  attributes (inject_session st sp) !! key = attributes sp !! key.
Proof.
  intros Hk. unfold inject_session.
  destruct (getSessionId st) as [s|]; [destruct (truthy (JStr s))|]; simpl;
    rewrite ?lookup_insert_ne by congruence; reflexivity.
Qed.

Lemma inject_user_other (st : otel_state) (sp : span_state) (key : string) :
  key <> "laika.user.id" ->
  attributes (inject_user st sp) !! key = attributes sp !! key.
Proof.
  intros Hk. unfold inject_user.
  destruct (getUserId st) as [u|]; [destruct (truthy (JStr u))|]; simpl;
    rewrite ?lookup_insert_ne by congruence; reflexivity.
Qed.

(** C5 (amended): on a newly started span, [onStart] attaches the session
    attribute exactly when the ambient [sessionId] is a non-empty string
    (JavaScript truthiness: [null] and the empty string attach nothing),
    likewise the user attribute for [userId], and one
    ["laika.property." ++ key] attribute per entry of the properties map,
    carrying the property's string/number/boolean value unconverted.  With
    no ambient context (no store, empty properties map) the span carries
    none of these attributes. *)
Theorem onStart_attributes (st : otel_state) (collab : collaborator) (log : list string) :
  exists sp', onStart st collab (mkSpan ∅ log) = Ok sp' /\
  attributes sp' !! "laika.session.id" =
    match getSessionId st with
    | Some s => if truthy (JStr s) then Some (PStr s) else None
    | None => None
    end /\
  attributes sp' !! "laika.user.id" =
    match getUserId st with
    | Some u => if truthy (JStr u) then Some (PStr u) else None
    | None => None
    end /\
  (forall k, attributes sp' !! ("laika.property." ++ k) = properties st !! k) /\
  (als_store st = None -> properties st = ∅ ->
     attributes sp' !! "laika.session.id" = None /\
     attributes sp' !! "laika.user.id" = None /\
     forall k, attributes sp' !! ("laika.property." ++ k) = None).
Proof.
  set (sp3 := inject_properties (map_to_list (getProperties st))
                (inject_user st (inject_session st (mkSpan ∅ log)))).
  assert (Hs : attributes (inject_experiment collab sp3) !! "laika.session.id" =
    match getSessionId st with
    | Some s => if truthy (JStr s) then Some (PStr s) else None
    | None => None
    end).
  { rewrite inject_experiment_other by discriminate. subst sp3.
    rewrite inject_properties_other
      by (intros k; apply property_key_ne; left; reflexivity).
    rewrite inject_user_other by discriminate.
    unfold inject_session. destruct (getSessionId st) as [s|]; [|reflexivity].
    destruct (truthy (JStr s)); [apply lookup_insert_eq | reflexivity]. }
  assert (Hu : attributes (inject_experiment collab sp3) !! "laika.user.id" =
    match getUserId st with
    | Some u => if truthy (JStr u) then Some (PStr u) else None
    | None => None
    end).
  { rewrite inject_experiment_other by discriminate. subst sp3.
    rewrite inject_properties_other
      by (intros k; apply property_key_ne; right; left; reflexivity).
    unfold inject_user. destruct (getUserId st) as [u|].
    - destruct (truthy (JStr u)); [apply lookup_insert_eq|].
      apply inject_session_other. discriminate.
    - apply inject_session_other. discriminate. }
  assert (Hp : forall k, attributes (inject_experiment collab sp3) !! ("laika.property." ++ k)
                         = properties st !! k).
  { intros k.
    rewrite inject_experiment_other
      by (apply not_eq_sym, property_key_ne; tauto).
    subst sp3. rewrite inject_properties_lookup by apply NoDup_fst_map_to_list.
    unfold getProperties. rewrite list_to_map_to_list.
    destruct (properties st !! k); [reflexivity|].
    rewrite inject_user_other by (apply not_eq_sym, property_key_ne; tauto).
    rewrite inject_session_other by (apply not_eq_sym, property_key_ne; tauto).
    reflexivity. }
  exists (inject_experiment collab sp3).
  split; [reflexivity|]. split; [exact Hs|]. split; [exact Hu|]. split; [exact Hp|].
  intros Hst Hprops. rewrite Hs, Hu.
  unfold getSessionId, getUserId, getContext. rewrite Hst.
  split; [reflexivity|]. split; [reflexivity|].
  intros k. rewrite Hp, Hprops. apply lookup_empty.
Qed.

(** Witness: the theorem with no ambient context. *)
Lemma onStart_attributes_witness :
  exists sp', onStart init_state ModuleMissing (mkSpan ∅ []) = Ok sp' /\
              attributes sp' !! "laika.session.id" = None.
Proof.
  destruct (onStart_attributes init_state ModuleMissing []) as (sp' & Hrun & _ & _ & _ & Hnone).
  exists sp'. split; [exact Hrun|].
  destruct (Hnone eq_refl eq_refl) as [Hsession _]. exact Hsession.
Defined.

(* ------------------------------------------------------------------ *)
(** ** Cache maintenance: [cleanup] and [destroy] *)
(* ------------------------------------------------------------------ *)

Lemma expired_false (c : PromptCache) (now : Z) (e : entry) :
  expired c now e = false <-> now - fetchedAt e <= ttl c.
Proof.
  unfold expired. rewrite Z.gtb_ltb. rewrite Z.ltb_ge. reflexivity.
Qed.

Lemma cleanup_lookup_raw (c : PromptCache) (now : Z) (k : string) :
  cache (cleanup c now) !! k =
  match cache c !! k with
  | Some e => if expired c now e then None else Some e
  | None => None
  end.
Proof.
  unfold cleanup. simpl. rewrite map_lookup_filter.
  destruct (cache c !! k) as [e|]; simpl; [|reflexivity].
  destruct (expired c now e) eqn:He.
  - rewrite option_guard_False by (simpl; congruence). reflexivity.
  - rewrite option_guard_True by reflexivity. reflexivity.
Qed.

(** X1: [cleanup] keeps exactly the live entries: after it, a key maps to
    an entry iff it did before and that entry is at most [ttl] ms old. *)
Theorem cleanup_keeps_live_entries (c : PromptCache) (now : Z) (k : string) (e : entry) :
  cache (cleanup c now) !! k = Some e <->
  cache c !! k = Some e /\ now - fetchedAt e <= ttl c.
Proof.
  rewrite cleanup_lookup_raw, <- expired_false.
  destruct (cache c !! k) as [e'|]; [|split; [discriminate | intros [H _]; discriminate]].
  destruct (expired c now e') eqn:He; split.
  - discriminate.
  - intros [H1 H2]. injection H1 as <-. congruence.
  - intros H. injection H as <-. split; [reflexivity | exact He].
  - intros [H1 _]. exact H1.
Qed.

(** X2: running [cleanup] before a [get] at the same instant changes
    neither the value [get] returns nor the final cache contents: the
    result is that of [get] alone, followed by [cleanup]. *)
Theorem cleanup_get_commute (c : PromptCache) (k : string) (now : Z) :
  cache_fetch (cleanup c now) k now =
  (fst (cache_fetch c k now), cleanup (snd (cache_fetch c k now)) now).
Proof.
  unfold cache_fetch at 1. rewrite cleanup_lookup_raw.
  unfold cache_fetch. destruct (cache c !! k) as [e|] eqn:Hk; [|reflexivity].
  fold (expired c now e). destruct (expired c now e) eqn:He; simpl.
  - f_equal. unfold cleanup. simpl. f_equal.
    rewrite map_filter_delete. symmetry. apply delete_id.
    rewrite map_lookup_filter, Hk. simpl.
    rewrite option_guard_False by (simpl; congruence). reflexivity.
  - change (Z.gtb (now - fetchedAt e) (ttl c)) with (expired c now e) in *.
    rewrite He. reflexivity.
Qed.

(** X3: two cleanups at times [t1 <= t2] leave the cache exactly as one
    cleanup at [t2]; in particular [cleanup] is idempotent. *)
Theorem cleanup_compose (c : PromptCache) (t1 t2 : Z) :
  t1 <= t2 -> cleanup (cleanup c t1) t2 = cleanup c t2.
Proof.
  intros Ht. unfold cleanup. simpl. f_equal.
  apply map_filter_filter_l. intros k e _. simpl.
  rewrite !expired_false. simpl. lia.
Qed.

Lemma cleanup_compose_witness :
  0 <= 5 /\ cleanup (cleanup (new_cache 10) 0) 5 = cleanup (new_cache 10) 5.
Proof. split; [lia | apply (cleanup_compose (new_cache 10) 0 5); lia]. Defined.

(* ------------------------------------------------------------------ *)
(** ** [getPrompt] around the cache *)
(* ------------------------------------------------------------------ *)

Lemma with_cache_self (client : LaikaTest) : with_cache client (prompt_cache client) = client.
Proof. destruct client; reflexivity. Qed.

(** The path of [getPrompt] that does not read the cache. *)
Lemma getPrompt_fetch_path (client : LaikaTest) (fetch : string -> option string -> result jsval)
    (promptName : jsval) (fields : list (string * jsval)) (t_get t_set : Z)
    (name : string) (versionId : option string) :
  validatePromptName promptName = Ok name ->
  validateVersionId (js_field fields "versionId") = Ok versionId ->
  cacheEnabled client = false \/ truthy (js_field fields "bypassCache") = true ->
  getPrompt client fetch promptName (JObject fields) t_get t_set =
  match fetch name versionId with
  | Err e => (Err e, client, [(name, versionId)])
  | Ok x => (Ok (mkPrompt x),
             with_cache client
               (if cacheEnabled client
                then cache_store (prompt_cache client)
                       (if truthy x
                        then name ++ ":" ++ js_to_string (version_val versionId) ++ ":" ++ js_to_string x
                        else name ++ ":" ++ js_to_string (version_val versionId))
                       JUndefined t_set
                else prompt_cache client),
             [(name, versionId)])
  end.
Proof.
  intros Hn Hv Hc. unfold getPrompt, get_prop. rewrite Hn, Hv.
  replace (cacheEnabled client && negb (truthy (js_field fields "bypassCache"))) with false
    by (destruct Hc as [-> | ->]; [reflexivity | symmetry; apply andb_false_r]).
  unfold fetch_and_store. destruct (fetch name versionId) as [x|e].
  - reflexivity.
  - rewrite with_cache_self. reflexivity.
Qed.

(** X4: with the cache disabled, or with a truthy [options.bypassCache],
    [getPrompt] on a valid name and version makes exactly one [fetchPrompt]
    call and never reads the cache.  A fetched content is returned as it
    is, even a falsy one.  With the cache enabled, [cache.set] then stores
    [undefined] (its [content] parameter, left unfilled) under the key
    ["name:version:content"] for a truthy content and ["name:version"]
    otherwise, the version printed as [`${versionId}`] (["undefined"] for
    none); with the cache disabled the cache is left alone.  A failed fetch
    leaves the client unchanged and propagates the error. *)
Theorem getPrompt_without_cache_read (client : LaikaTest)
    (fetch : string -> option string -> result jsval)
    (promptName : jsval) (fields : list (string * jsval)) (t_get t_set : Z)
    (name : string) (versionId : option string) :
  validatePromptName promptName = Ok name ->
  validateVersionId (js_field fields "versionId") = Ok versionId ->
  cacheEnabled client = false \/ truthy (js_field fields "bypassCache") = true ->
  getPrompt client fetch promptName (JObject fields) t_get t_set =
  match fetch name versionId with
  | Err e => (Err e, client, [(name, versionId)])
  | Ok x => (Ok (mkPrompt x),
             with_cache client
               (if cacheEnabled client
                then cache_store (prompt_cache client)
                       (if truthy x
                        then name ++ ":" ++ js_to_string (version_val versionId) ++ ":" ++ js_to_string x
                        else name ++ ":" ++ js_to_string (version_val versionId))
                       JUndefined t_set
                else prompt_cache client),
             [(name, versionId)])
  end.
Proof. apply getPrompt_fetch_path. Qed.

(** Witness: [getPrompt('greet', { versionId: 'v2', bypassCache: true })]
    fetching ['hi'] stores [undefined] under ['greet:2:hi']. *)
Lemma getPrompt_without_cache_read_witness :
  getPrompt (mkLaikaTest true (new_cache 1000)) (fun _ _ => Ok (JStr "hi"))
    (JStr "greet") (JObject [("versionId", JStr "v2"); ("bypassCache", JBool true)]) 0 0 =
  (Ok (mkPrompt (JStr "hi")),
   mkLaikaTest true (cache_store (new_cache 1000) "greet:2:hi" JUndefined 0),
   [("greet", Some "2")]).
Proof.
  exact (getPrompt_without_cache_read (mkLaikaTest true (new_cache 1000))
           (fun _ _ => Ok (JStr "hi")) (JStr "greet")
           [("versionId", JStr "v2"); ("bypassCache", JBool true)] 0 0 "greet" (Some "2")
           eq_refl eq_refl (or_intror eq_refl)).
Defined.

(** X5: [client.destroy()] on a client with caching enabled empties the
    cache and keeps caching enabled; the next [getPrompt] of a valid name
    and version then calls [fetchPrompt], exactly once, and returns what it
    fetched. *)
Theorem getPrompt_after_destroy_fetches (client : LaikaTest)
    (fetch : string -> option string -> result jsval)
    (promptName : jsval) (fields : list (string * jsval)) (t_get t_set : Z)
    (name : string) (versionId : option string) :
  cacheEnabled client = true ->
  validatePromptName promptName = Ok name ->
  validateVersionId (js_field fields "versionId") = Ok versionId ->
  cache (prompt_cache (laika_destroy client)) = ∅ /\
  cacheEnabled (laika_destroy client) = true /\
  let '(r, client', calls) :=
    getPrompt (laika_destroy client) fetch promptName (JObject fields) t_get t_set in
  calls = [(name, versionId)] /\
  r = match fetch name versionId with Ok x => Ok (mkPrompt x) | Err e => Err e end /\
  cacheEnabled client' = true.
Proof.
  intros He Hn Hv. unfold laika_destroy. rewrite He. simpl.
  split; [reflexivity|]. split; [exact He|].
  pose proof (getPrompt_undefined_cache (with_cache client (destroy (prompt_cache client)))
                fetch promptName fields t_get t_set name versionId Hn Hv
                ltac:(apply map_Forall_empty)) as H.
  destruct (getPrompt _ _ _ _ _ _) as [[r client'] calls].
  destruct H as (Hc & Hr & _ & He'). simpl in He'. rewrite He in He'. auto.
Qed.

Lemma getPrompt_after_destroy_fetches_witness :
  cache (prompt_cache (laika_destroy
    (mkLaikaTest true (LibCache.set_js (new_cache 1000) (JStr "greet") JUndefined
                         (JStr "old") JUndefined 0)))) = ∅ /\
  cacheEnabled (laika_destroy
    (mkLaikaTest true (LibCache.set_js (new_cache 1000) (JStr "greet") JUndefined
                         (JStr "old") JUndefined 0))) = true /\
  let '(r, client', calls) :=
    getPrompt (laika_destroy
                 (mkLaikaTest true (LibCache.set_js (new_cache 1000) (JStr "greet") JUndefined
                                      (JStr "old") JUndefined 0)))
      (fun _ _ => Ok (JStr "new")) (JStr "greet") (JObject []) 1 1 in
  calls = [("greet", None)] /\
  r = match (Ok (JStr "new") : result jsval) with
      | Ok x => Ok (mkPrompt x) | Err e => Err e end /\
  cacheEnabled client' = true.
Proof.
  exact (getPrompt_after_destroy_fetches
           (mkLaikaTest true (LibCache.set_js (new_cache 1000) (JStr "greet") JUndefined
                                (JStr "old") JUndefined 0))
           (fun _ _ => Ok (JStr "new")) (JStr "greet") [] 1 1 "greet" None
           eq_refl eq_refl eq_refl).
Defined.

(* ------------------------------------------------------------------ *)
(** ** The validators of scores, ids and API keys; the constructor *)
(* ------------------------------------------------------------------ *)

Lemma trims_to_empty_nil_check (n : string) :
  negb (truthy (JStr n)) || trims_to_empty n = trims_to_empty n.
Proof. destruct n; reflexivity. Qed.

Lemma js_str_is_spec (v : jsval) (t : string) : js_str_is v t = true <-> v = JStr t.
Proof.
  destruct v; simpl; split; try discriminate.
  - intros H. apply String.eqb_eq in H. subst. reflexivity.
  - intros H. injection H as ->. apply String.eqb_refl.
Qed.

Lemma type_check_simpl (v : jsval) :
  negb (truthy v) || negb (js_str_is v "int" || js_str_is v "bool" || js_str_is v "string") =
  negb (js_str_is v "int" || js_str_is v "bool" || js_str_is v "string").
Proof.
  destruct v as [| |[]|z|[]|t|xs|fs]; simpl; rewrite ?orb_true_r; try reflexivity.
  destruct (String.eqb_spec t "int"); [subst; reflexivity|].
  destruct (String.eqb_spec t "bool"); [subst; reflexivity|].
  destruct (String.eqb_spec t "string"); [subst; reflexivity|].
  simpl. apply orb_true_r.
Qed.

(** The shape of a score [validateScores] accepts. *)
Lemma validateScore_ok (i : nat) (score : jsval) :
  validateScore i score = Ok tt <->
  exists fields n, score = JObject fields /\
    js_field fields "name" = JStr n /\ trims_to_empty n = false /\
    ((js_field fields "type" = JStr "int" /\ exists z, js_field fields "value" = JNum z) \/
     (js_field fields "type" = JStr "bool" /\ exists b, js_field fields "value" = JBool b) \/
     (js_field fields "type" = JStr "string" /\ exists t, js_field fields "value" = JStr t)).
Proof.
  split.
  - intros H. destruct score as [| | | | | |xs|fields]; try discriminate H.
    exists fields. unfold validateScore in H.
    destruct (js_field fields "name") as [| | | | |n| |] eqn:Hn; try discriminate H.
    exists n. rewrite trims_to_empty_nil_check in H.
    destruct (trims_to_empty n) eqn:Htr; [discriminate H|].
    do 3 (split; [reflexivity || assumption|]).
    rewrite type_check_simpl in H.
    destruct (js_str_is (js_field fields "type") "int") eqn:Hi;
    destruct (js_str_is (js_field fields "type") "bool") eqn:Hb;
    destruct (js_str_is (js_field fields "type") "string") eqn:Hs;
    simpl in H; try discriminate H;
    rewrite ?Hi, ?Hb, ?Hs in H; simpl in H;
    destruct (js_field fields "value") as [| |bv|zv|k|sv|ys|fs] eqn:Hv; simpl in H;
    rewrite ?Hi, ?Hb, ?Hs in H; simpl in H; try discriminate H;
    first [ left; split; [apply js_str_is_spec; assumption | eexists; reflexivity]
          | right; left; split; [apply js_str_is_spec; assumption | eexists; reflexivity]
          | right; right; split; [apply js_str_is_spec; assumption | eexists; reflexivity] ].
  - intros (fields & n & -> & Hn & Htr & Hty).
    unfold validateScore. rewrite Hn, trims_to_empty_nil_check, Htr.
    destruct Hty as [[Ht [z Hv]] | [[Ht [b Hv]] | [Ht [t Hv]]]];
      rewrite Ht, Hv; reflexivity.
Qed.

Lemma validateScores_from_ok (i : nat) (xs : list jsval) :
  validateScores_from i xs = Ok tt <-> Forall (fun s => validateScore 0 s = Ok tt) xs.
Proof.
  revert i. induction xs as [|s xs IH]; intros i; simpl.
  - split; constructor.
  - rewrite Forall_cons.
    destruct (validateScore i s) as [[]|e] eqn:Hs; simpl.
    + rewrite IH. assert (validateScore 0 s = Ok tt).
      { apply validateScore_ok. apply (validateScore_ok i). exact Hs. }
      tauto.
    + split; [discriminate|]. intros [H _].
      apply (validateScore_ok 0), (validateScore_ok i) in H. congruence.
Qed.

Lemma validateScores_from_app (i : nat) (xs l : list jsval) :
  Forall (fun s => validateScore 0 s = Ok tt) xs ->
  validateScores_from i (xs ++ l) = validateScores_from (i + length xs) l.
Proof.
  revert i. induction xs as [|s xs IH]; intros i Hok; simpl.
  - rewrite Nat.add_0_r. reflexivity.
  - inversion Hok as [|? ? Hs Hxs]; subst.
    assert (Hi : validateScore i s = Ok tt).
    { apply (validateScore_ok i). apply (validateScore_ok 0). exact Hs. }
    rewrite Hi. simpl. rewrite IH by exact Hxs. f_equal. lia.
Qed.

(** An ['int'] score whose value is [NaN] is rejected. *)
Example validateScores_rejects_nan :
  exists e, validateScores (JArray [JObject [("name", JStr "q"); ("type", JStr "int");
                                            ("value", JNonFinite NaN)]]) = Err e.
Proof. eexists. reflexivity. Qed.

(** X7: [validateScores] accepts an array exactly when it is non-empty and
    every score is an object with a [name] string that is not blank, and a
    [type] of ['int'], ['bool'] or ['string'] with a [value] of the matching
    JavaScript type: a finite number (not [NaN] or [±Infinity], which
    [Number.isFinite] rejects), a boolean, a string. *)
Theorem validateScores_accepts (xs : list jsval) :
  validateScores (JArray xs) = Ok tt <->
  xs <> [] /\
  Forall (fun score => exists fields n, score = JObject fields /\
    js_field fields "name" = JStr n /\ trims_to_empty n = false /\
    ((js_field fields "type" = JStr "int" /\ exists z, js_field fields "value" = JNum z) \/
     (js_field fields "type" = JStr "bool" /\ exists b, js_field fields "value" = JBool b) \/
     (js_field fields "type" = JStr "string" /\ exists t, js_field fields "value" = JStr t))) xs.
Proof.
  assert (Heq : Forall (fun s => validateScore 0 s = Ok tt) xs <->
    Forall (fun score => exists fields n, score = JObject fields /\
      js_field fields "name" = JStr n /\ trims_to_empty n = false /\
      ((js_field fields "type" = JStr "int" /\ exists z, js_field fields "value" = JNum z) \/
       (js_field fields "type" = JStr "bool" /\ exists b, js_field fields "value" = JBool b) \/
       (js_field fields "type" = JStr "string" /\ exists t, js_field fields "value" = JStr t))) xs).
  { split; intros H; (eapply Forall_impl; [exact H|]); intros s Hs; apply (validateScore_ok 0); exact Hs. }
  rewrite <- Heq. unfold validateScores. destruct xs as [|s xs].
  - split; [discriminate | intros [H _]; congruence].
  - rewrite validateScores_from_ok. split; [intros H; split; [discriminate | exact H] | tauto].
Qed.

(** X8: [validateScores] stops at the first invalid score: when every
    score before index [length xs] is valid on its own and the score [bad]
    at that index is not, the error is the one [bad] raises at that index
    (its message names that index or [bad]'s name), whatever follows. *)
Theorem validateScores_first_error (xs ys : list jsval) (bad : jsval) (e : js_error) :
  Forall (fun s => validateScores (JArray [s]) = Ok tt) xs ->
  validateScore (length xs) bad = Err e ->
  validateScores (JArray (xs ++ bad :: ys)) = Err e.
Proof.
  intros Hok Hbad.
  assert (Hok' : Forall (fun s => validateScore 0 s = Ok tt) xs).
  { eapply Forall_impl; [exact Hok|]. intros s Hs. simpl in Hs.
    destruct (validateScore 0 s) as [[]|e'] eqn:H0; [reflexivity | discriminate Hs]. }
  assert (Hv : validateScores (JArray (xs ++ bad :: ys)) = validateScores_from 0 (xs ++ bad :: ys)).
  { unfold validateScores. destruct xs; reflexivity. }
  rewrite Hv, validateScores_from_app by exact Hok'. simpl. rewrite Hbad. reflexivity.
Qed.

Lemma validateScores_first_error_witness :
  validateScores (JArray [JObject [("name", JStr "rating"); ("type", JStr "int"); ("value", JNum 5)];
                          JObject [("name", JStr "ok"); ("type", JStr "bool"); ("value", JStr "yes")];
                          JNull]) =
  Err (ValidationError "Score 'ok' has type 'bool' but value is not a boolean").
Proof.
  exact (validateScores_first_error
           [JObject [("name", JStr "rating"); ("type", JStr "int"); ("value", JNum 5)]]
           [JNull]
           (JObject [("name", JStr "ok"); ("type", JStr "bool"); ("value", JStr "yes")])
           (ValidationError "Score 'ok' has type 'bool' but value is not a boolean")
           ltac:(repeat constructor) eq_refl).
Defined.

Lemma has_id_spec (v : jsval) :
  has_id v = true <-> exists s, v = JStr s /\ trims_to_empty s = false.
Proof.
  destruct v as [| | | | |s| |]; simpl;
    try (split; [discriminate | intros (x & Hx & _); discriminate Hx]).
  replace (negb (String.eqb s "") && negb (trims_to_empty s)) with (negb (trims_to_empty s))
    by (destruct s; reflexivity).
  split.
  - intros H. exists s. split; [reflexivity|]. destruct (trims_to_empty s); [discriminate|reflexivity].
  - intros (x & Hx & Ht). injection Hx as ->. rewrite Ht. reflexivity.
Qed.

(** X9: [validateSessionOrUserId] accepts exactly when at least one of the
    two ids is a string that is not empty and not only whitespace; a
    number, [null] or a blank string counts as missing. *)
Theorem validateSessionOrUserId_accepts (session_id user_id : jsval) :
  validateSessionOrUserId session_id user_id = Ok tt <->
  (exists s, session_id = JStr s /\ trims_to_empty s = false) \/
  (exists u, user_id = JStr u /\ trims_to_empty u = false).
Proof.
  rewrite <- !has_id_spec. unfold validateSessionOrUserId.
  destruct (has_id session_id), (has_id user_id); simpl;
    split; try discriminate; intuition congruence.
Qed.

(** X10: [new LaikaTest(apiKey, options)] throws in exactly two cases:
    a ValidationError when [apiKey] is not a non-empty string (whatever
    the options), and a TypeError when the key is valid but [options] is
    [null] (the default [{}] replaces only [undefined]). *)
Theorem new_LaikaTest_errors (apiKey options : jsval) (e : js_error) :
  new_LaikaTest apiKey options = Err e <->
  (e = ValidationError "API key is required and must be a string" /\
   forall s, apiKey = JStr s -> s = "") \/
  ((exists s, apiKey = JStr s /\ s <> "") /\ options = JNull /\ e = TypeError).
Proof.
  unfold new_LaikaTest.
  destruct apiKey as [| | | | |s| |]; simpl;
    try (split; [intros H; injection H as <-; left; split; [reflexivity | discriminate]
                |intros [[-> _] | [(x & Hx & _) _]]; [reflexivity | discriminate Hx]]).
  destruct (String.eqb_spec s "") as [->|Hs]; simpl.
  - split; [intros H; injection H as <-; left; split; [reflexivity | intros x Hx; injection Hx as ->; reflexivity]|].
    intros [[-> _] | [(x & Hx & Hne) _]]; [reflexivity|]. injection Hx as <-. congruence.
  - destruct options; simpl; split; intros H; try discriminate H;
      try (destruct H as [[_ Hk] | [_ [Ho He]]];
           [specialize (Hk s eq_refl); congruence | try discriminate Ho]).
    + injection H as He. subst e. right. split; [exists s; split; [reflexivity | exact Hs]|].
      split; reflexivity.
    + subst e. reflexivity.
Qed.

(* ------------------------------------------------------------------ *)
(** ** URLs and the transport check *)
(* ------------------------------------------------------------------ *)










(** X13: when [validateSecureUrl] refuses the prompt URL (a plain
    [http://] URL without ['localhost'] or ['127.0.0.1']), [fetchPrompt]
    throws the NetworkError "Failed to connect to LaikaTest API" and no
    request reaches the server. *)
Theorem fetchPrompt_refused_url (JSON_parse : json_parser) (server : http_request -> http_outcome)
    (apiKey baseUrl promptName : string) (versionId : option string) (timeout : jsval)
    (e : js_error) :
  validateSecureUrl (PromptUtils.buildPromptUrl baseUrl promptName versionId) = Err e ->
  PromptUtils.fetchPrompt JSON_parse server apiKey baseUrl promptName versionId timeout =
  Err (NetworkError "Failed to connect to LaikaTest API").
Proof.
  intros H. unfold PromptUtils.fetchPrompt, makeHttpRequest. simpl. rewrite H. reflexivity.
Qed.

Lemma fetchPrompt_refused_url_witness :
  PromptUtils.fetchPrompt (fun v => Ok v) (fun _ => Responded 200 None) "key"
    "http://api.example.com" "greet" None (JNum 10000) =
  Err (NetworkError "Failed to connect to LaikaTest API").
Proof.
  exact (fetchPrompt_refused_url (fun v => Ok v) (fun _ => Responded 200 None) "key"
           "http://api.example.com" "greet" None (JNum 10000)
           (PlainError "HTTP protocol is not allowed for security reasons. Please use HTTPS.")
           eq_refl).
Defined.

(** The path of [PromptUtils.fetchPrompt] after an accepted response. *)
Lemma fetchPrompt_success_path (JSON_parse : json_parser) (server : http_request -> http_outcome)
    (apiKey baseUrl promptName : string) (versionId : option string) (timeout : jsval)
    (fields dfs : list (string * jsval)) :
  validateSecureUrl (PromptUtils.buildPromptUrl baseUrl promptName versionId) = Ok tt ->
  server (PromptUtils.promptRequest apiKey baseUrl promptName versionId timeout) =
    Responded 200 (Some (JObject fields)) ->
  truthy (js_field fields "success") = true ->
  js_field fields "data" = JObject dfs ->
  PromptUtils.fetchPrompt JSON_parse server apiKey baseUrl promptName versionId timeout =
  match JSON_parse (js_field dfs "content") with
  | Err e => Err e
  | Ok data =>
      if js_str_is (js_field dfs "type") "text"
      then first ← get_index data 0; get_prop first "content"
      else Ok data
  end.
Proof.
  intros Hu Hs Hok Hd. unfold PromptUtils.fetchPrompt, makeHttpRequest. simpl.
  rewrite Hu, Hs. simpl. unfold api_accepted. simpl. rewrite Hok. simpl.
  rewrite Hd. simpl. destruct (JSON_parse (js_field dfs "content")); reflexivity.
Qed.

(** X14: for a ['text'] prompt whose content parses to an array,
    [fetchPrompt] returns the [content] field of the first element,
    unchecked: a missing field or a non-object element gives [undefined],
    and an empty array (or a [null] first element) throws a TypeError
    rather than a LaikaServiceError. *)
Theorem fetchPrompt_text_first_element (JSON_parse : json_parser)
    (server : http_request -> http_outcome) (apiKey baseUrl promptName : string)
    (versionId : option string) (timeout : jsval) (fields dfs : list (string * jsval))
    (xs : list jsval) :
  validateSecureUrl (PromptUtils.buildPromptUrl baseUrl promptName versionId) = Ok tt ->
  server (PromptUtils.promptRequest apiKey baseUrl promptName versionId timeout) =
    Responded 200 (Some (JObject fields)) ->
  truthy (js_field fields "success") = true ->
  js_field fields "data" = JObject dfs ->
  js_field dfs "type" = JStr "text" ->
  JSON_parse (js_field dfs "content") = Ok (JArray xs) ->
  PromptUtils.fetchPrompt JSON_parse server apiKey baseUrl promptName versionId timeout =
  match xs with
  | [] => Err TypeError
  | first :: _ => get_prop first "content"
  end.
Proof.
  intros Hu Hs Hok Hd Ht Hp.
  rewrite (fetchPrompt_success_path JSON_parse server apiKey baseUrl promptName versionId
             timeout fields dfs Hu Hs Hok Hd), Hp, Ht. simpl.
  destruct xs; reflexivity.
Qed.

Lemma fetchPrompt_text_first_element_witness :
  PromptUtils.fetchPrompt (fun _ => Ok (JArray []))
    (fun _ => Responded 200 (Some (JObject [("success", JBool true);
       ("data", JObject [("type", JStr "text"); ("content", JStr "[]")])])))
    "key" "https://api.laikatest.com" "greet" None (JNum 10000) = Err TypeError.
Proof.
  exact (fetchPrompt_text_first_element (fun _ => Ok (JArray []))
    (fun _ => Responded 200 (Some (JObject [("success", JBool true);
       ("data", JObject [("type", JStr "text"); ("content", JStr "[]")])])))
    "key" "https://api.laikatest.com" "greet" None (JNum 10000)
    [("success", JBool true); ("data", JObject [("type", JStr "text"); ("content", JStr "[]")])]
    [("type", JStr "text"); ("content", JStr "[]")] []
    eq_refl eq_refl eq_refl eq_refl eq_refl eq_refl).
Defined.

(** X15: when the prompt content of an accepted response is not valid
    JSON, [fetchPrompt] throws the error of [JSON.parse] itself (a
    SyntaxError), not a LaikaServiceError, whatever the prompt type. *)
Theorem fetchPrompt_content_parse_error (JSON_parse : json_parser)
    (server : http_request -> http_outcome) (apiKey baseUrl promptName : string)
    (versionId : option string) (timeout : jsval) (fields dfs : list (string * jsval))
    (e : js_error) :
  validateSecureUrl (PromptUtils.buildPromptUrl baseUrl promptName versionId) = Ok tt ->
  server (PromptUtils.promptRequest apiKey baseUrl promptName versionId timeout) =
    Responded 200 (Some (JObject fields)) ->
  truthy (js_field fields "success") = true ->
  js_field fields "data" = JObject dfs ->
  JSON_parse (js_field dfs "content") = Err e ->
  PromptUtils.fetchPrompt JSON_parse server apiKey baseUrl promptName versionId timeout = Err e.
Proof.
  intros Hu Hs Hok Hd Hp.
  rewrite (fetchPrompt_success_path JSON_parse server apiKey baseUrl promptName versionId
             timeout fields dfs Hu Hs Hok Hd), Hp. reflexivity.
Qed.

Lemma fetchPrompt_content_parse_error_witness :
  PromptUtils.fetchPrompt (fun _ => Err (PlainError "Unexpected token"))
    (fun _ => Responded 200 (Some (JObject [("success", JBool true);
       ("data", JObject [("type", JStr "chat"); ("content", JStr "{oops")])])))
    "key" "https://api.laikatest.com" "greet" None (JNum 10000) =
  Err (PlainError "Unexpected token").
Proof.
  exact (fetchPrompt_content_parse_error (fun _ => Err (PlainError "Unexpected token"))
    (fun _ => Responded 200 (Some (JObject [("success", JBool true);
       ("data", JObject [("type", JStr "chat"); ("content", JStr "{oops")])])))
    "key" "https://api.laikatest.com" "greet" None (JNum 10000)
    [("success", JBool true); ("data", JObject [("type", JStr "chat"); ("content", JStr "{oops")])]
    [("type", JStr "chat"); ("content", JStr "{oops")] (PlainError "Unexpected token")
    eq_refl eq_refl eq_refl eq_refl eq_refl).
Defined.

(* ------------------------------------------------------------------ *)
(** ** [lib/experiment.js] and the base URL *)
(* ------------------------------------------------------------------ *)

Lemma list_ascii_of_string_app (a b : string) :
  list_ascii_of_string (a ++ b) = (list_ascii_of_string a ++ list_ascii_of_string b)%list.
Proof.
  induction a as [|c a IH]; [reflexivity|].
  rewrite str_app_cons. simpl. rewrite IH. reflexivity.
Qed.

Lemma list_ascii_of_string_inj (a b : string) :
  list_ascii_of_string a = list_ascii_of_string b -> a = b.
Proof.
  intros H. rewrite <- (string_of_list_ascii_of_string a), <- (string_of_list_ascii_of_string b), H.
  reflexivity.
Qed.

Lemma drop_slashes_repeat (n : nat) (r : list ascii) :
  drop_slashes (repeat "/"%char n ++ r) = drop_slashes r.
Proof. induction n as [|n IH]; [reflexivity|]. simpl. exact IH. Qed.

Lemma drop_slashes_split (r : list ascii) :
  exists m, r = (repeat "/"%char m ++ drop_slashes r)%list.
Proof.
  induction r as [|c r [m IH]]; [exists 0%nat; reflexivity|].
  simpl. destruct (ascii_dec c "/") as [->|Hc].
  - exists (S m). simpl. f_equal. exact IH.
  - exists 0%nat. reflexivity.
Qed.

Lemma drop_slashes_head (r : list ascii) (t : list ascii) :
  drop_slashes r <> ("/"%char :: t).
Proof.
  induction r as [|c r IH]; [discriminate|].
  simpl. destruct (ascii_dec c "/") as [->|Hc]; [exact IH|].
  intros H. injection H as H _. exact (Hc H).
Qed.

(** X16: [normalizeBaseUrl] removes the whole run of trailing slashes
    and nothing else: its result never ends with ['/'], the input is the
    result followed by slashes only, and adding slashes to the input does
    not change it.  So the experiment and score endpoints do not depend on
    trailing slashes of [baseUrl]. *)
Theorem normalizeBaseUrl_trailing_slashes (b : string) (n : nat) :
  normalizeBaseUrl (b ++ string_of_list_ascii (repeat "/"%char n)) = normalizeBaseUrl b /\
  (forall p, normalizeBaseUrl b <> p ++ "/") /\
  (exists m, b = normalizeBaseUrl b ++ string_of_list_ascii (repeat "/"%char m)) /\
  Experiment.buildExperimentUrl (b ++ string_of_list_ascii (repeat "/"%char n)) =
    Experiment.buildExperimentUrl b /\
  Score.buildScoreUrl (b ++ string_of_list_ascii (repeat "/"%char n)) = Score.buildScoreUrl b.
Proof.
  assert (Hn : normalizeBaseUrl (b ++ string_of_list_ascii (repeat "/"%char n)) = normalizeBaseUrl b).
  { unfold normalizeBaseUrl.
    rewrite list_ascii_of_string_app, list_ascii_of_string_of_list_ascii, rev_app_distr,
      rev_repeat, drop_slashes_repeat. reflexivity. }
  split; [exact Hn|]. split; [|split; [|split]].
  - intros p H. apply (f_equal list_ascii_of_string) in H.
    unfold normalizeBaseUrl in H.
    rewrite list_ascii_of_string_of_list_ascii, list_ascii_of_string_app in H.
    apply (f_equal (@rev ascii)) in H. rewrite rev_involutive, rev_app_distr in H.
    simpl in H. exact (drop_slashes_head _ _ H).
  - destruct (drop_slashes_split (rev (list_ascii_of_string b))) as [m Hm].
    exists m. apply list_ascii_of_string_inj.
    unfold normalizeBaseUrl.
    rewrite list_ascii_of_string_app, !list_ascii_of_string_of_list_ascii.
    rewrite <- (rev_involutive (list_ascii_of_string b)) at 1.
    rewrite Hm at 1. rewrite rev_app_distr, rev_repeat. reflexivity.
  - unfold Experiment.buildExperimentUrl. rewrite Hn. reflexivity.
  - unfold Score.buildScoreUrl. rewrite Hn. reflexivity.
Qed.

(** X17: [evaluateExperiment] (and so [getExperimentPrompt]) throws the
    ValidationError "Context must be a plain object" for a context that is
    [null], an array, a string, a number or a boolean, before any request
    is made. *)
Theorem evaluateExperiment_rejects_context (JSON_parse : json_parser)
    (server : http_request -> http_outcome) (apiKey baseUrl title : string)
    (context timeout : jsval) :
  match context with JUndefined | JObject _ => False | _ => True end ->
  Experiment.evaluateExperiment JSON_parse server apiKey (JStr baseUrl) title context timeout =
  Err (ValidationError "Context must be a plain object").
Proof. intros H. destruct context; try contradiction H; reflexivity. Qed.

Lemma evaluateExperiment_rejects_context_witness :
  Experiment.evaluateExperiment (fun v => Ok v) (fun _ => Responded 200 None) "key"
    (JStr "https://api.laikatest.com") "exp" (JArray []) (JNum 10000) =
  Err (ValidationError "Context must be a plain object").
Proof.
  exact (evaluateExperiment_rejects_context (fun v => Ok v) (fun _ => Responded 200 None) "key"
           "https://api.laikatest.com" "exp" (JArray []) (JNum 10000) I).
Defined.

Lemma get_prop_truthy (v : jsval) (k : string) :
  truthy v = true -> exists w, get_prop v k = Ok w.
Proof. destruct v; simpl; try discriminate; eauto. Qed.

(** X18: [extractPromptContent] throws nothing but a LaikaServiceError
    with status 500 that carries the prompt payload: a falsy payload, a
    non-string [content] and a [content] that [JSON.parse] rejects are all
    reported this way, and no TypeError can escape. *)
Theorem extractPromptContent_errors (JSON_parse : json_parser) (payload : jsval) (e : js_error) :
  Experiment.extractPromptContent JSON_parse payload = Err e ->
  exists msg, e = LaikaServiceError (JStr msg) 500 payload.
Proof.
  unfold Experiment.extractPromptContent.
  destruct (truthy payload) eqn:Ht; simpl; [|intros H; injection H as <-; eexists; reflexivity].
  destruct (get_prop_truthy payload "content" Ht) as [c Hc]. rewrite Hc. simpl.
  destruct c; try (intros H; injection H as <-; eexists; reflexivity).
  destruct (JSON_parse (JStr s)) as [parsed|e'];
    [|intros H; injection H as <-; eexists; reflexivity].
  destruct (get_prop_truthy payload "type" Ht) as [ty Hty]. rewrite Hty. simpl.
  destruct (js_str_is ty "text"); [|discriminate].
  destruct parsed; try discriminate.
  destruct (truthy (default JUndefined (xs !! 0%nat))) eqn:Hf; [|discriminate].
  destruct (get_prop_truthy _ "content" Hf) as [fc Hfc]. rewrite Hfc. simpl.
  destruct fc; discriminate.
Qed.

Lemma extractPromptContent_errors_witness :
  exists msg, LaikaServiceError (JStr "Malformed experiment response: invalid prompt content format")
    500 (JObject [("content", JStr "{oops")]) =
  LaikaServiceError (JStr msg) 500 (JObject [("content", JStr "{oops")]).
Proof.
  exact (extractPromptContent_errors (fun _ => Err (PlainError "Unexpected token"))
           (JObject [("content", JStr "{oops")])
           (LaikaServiceError (JStr "Malformed experiment response: invalid prompt content format")
              500 (JObject [("content", JStr "{oops")]))
           eq_refl).
Defined.

(** X19: for a ['text'] payload whose [content] parses to an array,
    [extractPromptContent] returns the first element's [content] when that
    element is an object whose [content] is a string, and otherwise the
    parsed array itself; an empty array gives [[]], never an exception. *)
Theorem extractPromptContent_text_array (JSON_parse : json_parser)
    (fields : list (string * jsval)) (s : string) (xs : list jsval) :
  js_field fields "content" = JStr s ->
  js_field fields "type" = JStr "text" ->
  JSON_parse (JStr s) = Ok (JArray xs) ->
  Experiment.extractPromptContent JSON_parse (JObject fields) =
  Ok (match xs with
      | JObject ffs :: _ =>
          match js_field ffs "content" with
          | JStr c => JStr c
          | _ => JArray xs
          end
      | _ => JArray xs
      end).
Proof.
  intros Hc Ht Hp. unfold Experiment.extractPromptContent. simpl.
  rewrite Hc, Hp, Ht. simpl.
  destruct xs as [|first rest]; [reflexivity|]. simpl.
  destruct first as [| |[]|z|[]|t|ys|ffs]; simpl; try reflexivity.
  - destruct (Z.eqb z 0); reflexivity.
  - destruct (String.eqb t ""); reflexivity.
  - destruct (js_field ffs "content"); reflexivity.
Qed.

Lemma extractPromptContent_text_array_witness :
  Experiment.extractPromptContent (fun _ => Ok (JArray []))
    (JObject [("content", JStr "[]"); ("type", JStr "text")]) = Ok (JArray []).
Proof.
  exact (extractPromptContent_text_array (fun _ => Ok (JArray []))
           [("content", JStr "[]"); ("type", JStr "text")] "[]" [] eq_refl eq_refl eq_refl).
Defined.

(** X20: when the evaluation request is answered with status 200 and a
    truthy [success] but [data] is falsy or lacks a truthy [prompt],
    [experimentId] or [bucketId], [evaluateExperiment] throws the
    LaikaServiceError "Malformed experiment response: missing data" with
    status 200 and the parsed body. *)
Theorem evaluateExperiment_missing_data (JSON_parse : json_parser)
    (server : http_request -> http_outcome) (apiKey baseUrl title : string)
    (context ctx timeout : jsval) (fields : list (string * jsval)) :
  Experiment.normalizeContext context = Ok ctx ->
  validateSecureUrl (Experiment.buildExperimentUrl baseUrl) = Ok tt ->
  server (mkRequest (Experiment.buildExperimentUrl baseUrl) "POST"
            [("Authorization", "Bearer " ++ apiKey); ("Content-Type", "application/json")]
            (Some (JObject [("experimentTitle", JStr title); ("context", ctx)])) timeout) =
    Responded 200 (Some (JObject fields)) ->
  truthy (js_field fields "success") = true ->
  (let data := js_field fields "data" in
   let f k := match data with JObject dfs => js_field dfs k | _ => JUndefined end in
   truthy data && truthy (f "prompt") && truthy (f "experimentId") && truthy (f "bucketId"))
  = false ->
  Experiment.evaluateExperiment JSON_parse server apiKey (JStr baseUrl) title context timeout =
  Err (LaikaServiceError (JStr "Malformed experiment response: missing data") 200 (JObject fields)).
Proof.
  intros Hc Hu Hs Hok Hd. unfold Experiment.evaluateExperiment. simpl.
  rewrite Hc. simpl. unfold makeHttpRequest. simpl. rewrite Hu, Hs. simpl.
  unfold api_accepted. simpl. rewrite Hok. simpl.
  simpl in Hd. destruct (js_field fields "data") as [| |[]|z|[]|t|ys|dfs]; simpl in Hd |- *;
    try reflexivity.
  - destruct (Z.eqb z 0); reflexivity.
  - destruct (String.eqb t ""); reflexivity.
  - destruct (truthy (js_field dfs "prompt")); simpl in Hd |- *; [|reflexivity].
    destruct (truthy (js_field dfs "experimentId")); simpl in Hd |- *; [|reflexivity].
    destruct (truthy (js_field dfs "bucketId")); simpl in Hd |- *; [discriminate Hd | reflexivity].
Qed.

Lemma evaluateExperiment_missing_data_witness :
  Experiment.evaluateExperiment (fun v => Ok v)
    (fun _ => Responded 200 (Some (JObject [("success", JBool true);
                                           ("data", JObject [("experimentId", JStr "e1")])])))
    "key" (JStr "https://api.laikatest.com") "exp" JUndefined (JNum 10000) =
  Err (LaikaServiceError (JStr "Malformed experiment response: missing data") 200
         (JObject [("success", JBool true); ("data", JObject [("experimentId", JStr "e1")])])).
Proof.
  exact (evaluateExperiment_missing_data (fun v => Ok v)
    (fun _ => Responded 200 (Some (JObject [("success", JBool true);
                                           ("data", JObject [("experimentId", JStr "e1")])])))
    "key" "https://api.laikatest.com" "exp" JUndefined (JObject []) (JNum 10000)
    [("success", JBool true); ("data", JObject [("experimentId", JStr "e1")])]
    eq_refl eq_refl eq_refl eq_refl eq_refl).
Defined.

(* ------------------------------------------------------------------ *)
(** ** [lib/score_utils.js], [LaikaTest.pushScore] and [Prompt.pushScore] *)
(* ------------------------------------------------------------------ *)

(** X21: [pushScore] does not validate [scores]: whatever the value, it
    sends one POST to [<base>/api/v1/score] whose body carries [scores] as
    given, [null] for a falsy session or user id, [{}] for falsy metadata,
    [source] ['sdk'] and a [trace_id] equal to [request_id]; a 200 answer
    with a truthy [success] gives the success object with both generated
    ids. *)
Theorem Score_pushScore_unvalidated_scores (sdk_event_id request_id client_version : string)
    (server : http_request -> http_outcome) (apiKey base : string)
    (exp_id bucket_id prompt_id scores session_id user_id metadata timeout : jsval)
    (fields : list (string * jsval)) :
  validateSecureUrl (Score.buildScoreUrl base) = Ok tt ->
  server (mkRequest (Score.buildScoreUrl base) "POST"
            [("Authorization", "Bearer " ++ apiKey); ("Content-Type", "application/json")]
            (Some (JObject
               [("exp_id", exp_id); ("bucket_id", bucket_id); ("prompt_id", prompt_id);
                ("scores", scores);
                ("session_id", if truthy session_id then session_id else JNull);
                ("user_id", if truthy user_id then user_id else JNull);
                ("metadata", if truthy metadata then metadata else JObject []);
                ("source", JStr "sdk"); ("client_version", JStr client_version);
                ("sdk_event_id", JStr sdk_event_id); ("request_id", JStr request_id);
                ("trace_id", JStr request_id)]))
            timeout) = Responded 200 (Some (JObject fields)) ->
  truthy (js_field fields "success") = true ->
  Score.pushScore sdk_event_id request_id client_version server apiKey (JStr base)
    exp_id bucket_id prompt_id scores session_id user_id metadata timeout =
  Ok (JObject [("success", JBool true); ("statusCode", JNum 200);
               ("data", js_field fields "data"); ("sdk_event_id", JStr sdk_event_id);
               ("request_id", JStr request_id)]).
Proof.
  intros Hu Hs Hok. unfold Score.pushScore. simpl. unfold makeHttpRequest. simpl.
  rewrite Hu. simpl. unfold Score.requestBody. rewrite Hs. simpl.
  unfold api_accepted. simpl. rewrite Hok. reflexivity.
Qed.

Lemma Score_pushScore_unvalidated_scores_witness :
  Score.pushScore "e1" "r1" "1.0.0"
    (fun _ => Responded 200 (Some (JObject [("success", JBool true); ("data", JNull)])))
    "key" (JStr "https://api.laikatest.com") (JStr "x") (JStr "b") (JStr "p")
    (JStr "not an array") JUndefined JUndefined JUndefined (JNum 10000) =
  Ok (JObject [("success", JBool true); ("statusCode", JNum 200); ("data", JNull);
               ("sdk_event_id", JStr "e1"); ("request_id", JStr "r1")]).
Proof.
  exact (Score_pushScore_unvalidated_scores "e1" "r1" "1.0.0"
    (fun _ => Responded 200 (Some (JObject [("success", JBool true); ("data", JNull)])))
    "key" "https://api.laikatest.com" (JStr "x") (JStr "b") (JStr "p")
    (JStr "not an array") JUndefined JUndefined JUndefined (JNum 10000)
    [("success", JBool true); ("data", JNull)] eq_refl eq_refl eq_refl).
Defined.

Lemma new_LaikaTest_timeout_truthy (apiKey options : jsval) (cfg : LaikaConfig) :
  new_LaikaTest apiKey options = Ok cfg -> truthy (cfg_timeout cfg) = true.
Proof.
  unfold new_LaikaTest. destruct (validateApiKey apiKey); [|discriminate]. simpl.
  destruct (get_prop _ "baseUrl"); [|discriminate]. simpl.
  destruct (get_prop _ "timeout") as [t|]; [|discriminate]. simpl.
  destruct (get_prop _ "cacheTTL"); [|discriminate]. simpl.
  destruct (get_prop _ "cacheEnabled"); [|discriminate]. simpl.
  intros H. injection H as <-. simpl. destruct (truthy t) eqn:Ht; [exact Ht | reflexivity].
Qed.

(** X22: [LaikaTest.pushScore] passes [this.timeout] where [pushScore]
    expects [metadata] and nothing where it expects [timeout]: for a client
    built by the constructor, the one request it makes has the client's
    timeout as the body's [metadata] and an undefined request timeout. *)
Theorem client_pushScore_timeout_as_metadata (sdk_event_id request_id client_version : string)
    (apiKey options : jsval) (cfg : LaikaConfig) (base : string)
    (exp_id bucket_id prompt_version_id scores session_id user_id : jsval) :
  new_LaikaTest apiKey options = Ok cfg ->
  cfg_baseUrl cfg = JStr base ->
  let body := Score.requestBody sdk_event_id request_id client_version exp_id bucket_id
                prompt_version_id scores session_id user_id (cfg_timeout cfg) in
  let req := mkRequest (Score.buildScoreUrl base) "POST"
               [("Authorization", "Bearer " ++ cfg_apiKey cfg);
                ("Content-Type", "application/json")] (Some body) JUndefined in
  get_prop body "metadata" = Ok (cfg_timeout cfg) /\
  forall server : http_request -> http_outcome,
    client_pushScore sdk_event_id request_id client_version server cfg
      exp_id bucket_id prompt_version_id scores session_id user_id =
    client_pushScore sdk_event_id request_id client_version (fun _ => server req) cfg
      exp_id bucket_id prompt_version_id scores session_id user_id.
Proof.
  intros Hc Hb body req. split.
  - subst body. unfold Score.requestBody. simpl.
    rewrite (new_LaikaTest_timeout_truthy apiKey options cfg Hc). reflexivity.
  - intros server. unfold client_pushScore, Score.pushScore. rewrite Hb. simpl.
    unfold makeHttpRequest. simpl.
    destruct (validateSecureUrl (Score.buildScoreUrl base)); reflexivity.
Qed.

Lemma client_pushScore_timeout_as_metadata_witness :
  exists cfg, new_LaikaTest (JStr "key") JUndefined = Ok cfg /\
  get_prop (Score.requestBody "e1" "r1" "1.0.0" (JStr "x") (JStr "b") (JStr "p") (JArray [])
              JNull JNull (cfg_timeout cfg)) "metadata" = Ok (JNum 10000).
Proof.
  eexists. split; [reflexivity|].
  exact (proj1 (client_pushScore_timeout_as_metadata "e1" "r1" "1.0.0" (JStr "key") JUndefined
    (mkConfig "key" (JStr "https://api.laikatest.com") (JNum 10000) true (Some (JNum 1800000)))
    "https://api.laikatest.com" (JStr "x") (JStr "b") (JStr "p") (JArray []) JNull JNull
    eq_refl eq_refl)).
Defined.

(** X23: [Prompt.pushScore] on a prompt missing a truthy experiment id,
    bucket id or prompt version id resolves to the
    [{success: false, errorType: 'ValidationError'}] object without making
    any request, whatever the scores and options. *)
Theorem prompt_pushScore_not_experiment (sdk_event_id request_id client_version : string)
    (p : ScorablePrompt) (scores options : jsval) :
  truthy (sp_experimentId p) && truthy (sp_bucketId p) && truthy (sp_promptVersionId p) = false ->
  forall server : http_request -> http_outcome,
    prompt_pushScore sdk_event_id request_id client_version server p scores options =
    Ok (JObject [("success", JBool false);
                 ("error", JStr "Cannot push score: This prompt is not from an experiment. Use getExperimentPrompt() to get a scorable prompt.");
                 ("errorType", JStr "ValidationError")]).
Proof.
  intros H server. unfold prompt_pushScore.
  destruct (truthy (sp_experimentId p)), (truthy (sp_bucketId p)),
    (truthy (sp_promptVersionId p)); simpl in H |- *; try discriminate H; reflexivity.
Qed.

Lemma prompt_pushScore_not_experiment_witness :
  prompt_pushScore "e1" "r1" "1.0.0" (fun _ => Responded 200 None)
    (mkScorable (JStr "hi") JUndefined JUndefined JUndefined None JUndefined)
    (JArray []) JUndefined =
  Ok (JObject [("success", JBool false);
               ("error", JStr "Cannot push score: This prompt is not from an experiment. Use getExperimentPrompt() to get a scorable prompt.");
               ("errorType", JStr "ValidationError")]).
Proof.
  exact (prompt_pushScore_not_experiment "e1" "r1" "1.0.0"
    (mkScorable (JStr "hi") JUndefined JUndefined JUndefined None JUndefined)
    (JArray []) JUndefined eq_refl (fun _ => Responded 200 None)).
Defined.

Lemma result_bind_Ok {A B} (m : result A) (f : A -> result B) (b : B) :
  (m ≫= f) = Ok b -> exists a, m = Ok a /\ f a = Ok b.
Proof. destruct m as [a|e]; simpl; [eauto | discriminate]. Qed.

Lemma handleApiError_not_Ok (statusCode : Z) (parsed v : jsval) :
  handleApiError statusCode parsed <> Ok v.
Proof.
  unfold handleApiError. destruct (Z.eqb statusCode 401);
    destruct (get_prop parsed "error"); discriminate.
Qed.

Lemma evaluateExperiment_ok_ids (JSON_parse : json_parser)
    (server : http_request -> http_outcome) (apiKey : string) (baseUrl : jsval)
    (title : string) (context timeout res : jsval) :
  Experiment.evaluateExperiment JSON_parse server apiKey baseUrl title context timeout = Ok res ->
  exists fields, res = JObject fields /\
    truthy (js_field fields "experimentId") = true /\
    truthy (js_field fields "bucketId") = true.
Proof.
  unfold Experiment.evaluateExperiment.
  intros H. apply result_bind_Ok in H as [base [_ H]].
  apply result_bind_Ok in H as [nctx [_ H]].
  destruct (makeHttpRequest _ server) as [|code body]; [discriminate|].
  apply result_bind_Ok in H as [parsed [_ H]].
  apply result_bind_Ok in H as [acc [_ H]].
  destruct acc; [|exfalso; exact (handleApiError_not_Ok _ _ _ H)].
  apply result_bind_Ok in H as [data [_ H]].
  destruct (truthy data); simpl in H; [|discriminate].
  apply result_bind_Ok in H as [prompt [_ H]].
  destruct (truthy prompt); simpl in H; [|discriminate].
  apply result_bind_Ok in H as [expId [_ H]].
  destruct (truthy expId) eqn:He; simpl in H; [|discriminate].
  apply result_bind_Ok in H as [bucketId [_ H]].
  destruct (truthy bucketId) eqn:Hb; simpl in H; [|discriminate].
  repeat (apply result_bind_Ok in H as [? [_ H]]).
  injection H as <-. eexists. split; [reflexivity|]. simpl. split; assumption.
Qed.

(** X24: a prompt returned by [getExperimentPrompt] keeps the client and
    has truthy experiment and bucket ids, so its [pushScore] with no
    options delegates to the client's [pushScore] with [null] session and
    user ids, unless the response's [promptVersionId] was falsy, which
    [evaluateExperiment] does not check; then it is refused as a prompt not
    from an experiment. *)
Theorem getExperimentPrompt_scorable (JSON_parse : json_parser)
    (server : http_request -> http_outcome) (cfg : LaikaConfig)
    (experimentTitle context : jsval) (p : ScorablePrompt) :
  getExperimentPrompt JSON_parse server cfg experimentTitle context = Ok p ->
  sp_client p = Some cfg /\
  truthy (sp_experimentId p) = true /\ truthy (sp_bucketId p) = true /\
  forall (sdk_event_id request_id client_version : string)
         (server' : http_request -> http_outcome) (scores : jsval),
    prompt_pushScore sdk_event_id request_id client_version server' p scores JUndefined =
    if truthy (sp_promptVersionId p) then
      client_pushScore sdk_event_id request_id client_version server' cfg
        (sp_experimentId p) (sp_bucketId p) (sp_promptVersionId p) scores JNull JNull
    else
      Ok (JObject [("success", JBool false);
                   ("error", JStr "Cannot push score: This prompt is not from an experiment. Use getExperimentPrompt() to get a scorable prompt.");
                   ("errorType", JStr "ValidationError")]).
Proof.
  unfold getExperimentPrompt. intros H.
  apply result_bind_Ok in H as [title [_ H]].
  apply result_bind_Ok in H as [res [Hres H]].
  destruct (evaluateExperiment_ok_ids _ _ _ _ _ _ _ _ Hres) as [fields [-> [He Hb]]].
  simpl in H.
  apply result_bind_Ok in H as [meta [_ H]].
  apply result_bind_Ok in H as [pv [_ H]].
  simpl in H. injection H as <-. simpl.
  split; [reflexivity|]. split; [exact He|]. split; [exact Hb|].
  intros sdk_event_id request_id client_version server' scores.
  unfold prompt_pushScore. simpl. rewrite He, Hb. simpl.
  match goal with |- context [truthy ?x] => destruct (truthy x) end; reflexivity.
Qed.

Lemma getExperimentPrompt_scorable_witness :
  exists p,
  getExperimentPrompt (fun _ => Ok (JArray [JObject [("content", JStr "Hello")]]))
    (fun _ => Responded 200 (Some (JObject
       [("success", JBool true);
        ("data", JObject [("prompt", JObject [("content", JStr "[]"); ("type", JStr "text");
                                              ("promptId", JStr "p1");
                                              ("promptVersionId", JStr "v1")]);
                          ("experimentId", JStr "e1"); ("bucketId", JStr "b1");
                          ("groupName", JStr "A")])])))
    (mkConfig "key" (JStr "https://api.laikatest.com") (JNum 10000) true (Some (JNum 1800000)))
    (JStr "exp") JUndefined = Ok p /\
  sp_client p =
    Some (mkConfig "key" (JStr "https://api.laikatest.com") (JNum 10000) true (Some (JNum 1800000))).
Proof.
  eexists. split; [reflexivity|].
  refine (proj1 (getExperimentPrompt_scorable
    (fun _ => Ok (JArray [JObject [("content", JStr "Hello")]]))
    (fun _ => Responded 200 (Some (JObject
       [("success", JBool true);
        ("data", JObject [("prompt", JObject [("content", JStr "[]"); ("type", JStr "text");
                                              ("promptId", JStr "p1");
                                              ("promptVersionId", JStr "v1")]);
                          ("experimentId", JStr "e1"); ("bucketId", JStr "b1");
                          ("groupName", JStr "A")])])))
    (mkConfig "key" (JStr "https://api.laikatest.com") (JNum 10000) true (Some (JNum 1800000)))
    (JStr "exp") JUndefined _ _)).
  reflexivity.
Defined.

(* ------------------------------------------------------------------ *)
(** ** [auto-otel]: the context and properties API, [onStart]'s experiment step *)
(* ------------------------------------------------------------------ *)

(** X25: inside a [runWithContext] extent (a store is installed), each
    setter is read back by its getter, each clear resets its id to [null],
    and the session and user ids are independent: setting or clearing one
    leaves the other, and the properties map, as they were. *)
Theorem context_setters_in_scope (st : otel_state) (s u : string) :
  als_store st <> None ->
  getSessionId (setSessionId s st) = Some s /\ getUserId (setSessionId s st) = getUserId st /\
  getSessionId (clearSessionId st) = None /\ getUserId (clearSessionId st) = getUserId st /\
  getUserId (setUserId u st) = Some u /\ getSessionId (setUserId u st) = getSessionId st /\
  getUserId (clearUserId st) = None /\ getSessionId (clearUserId st) = getSessionId st /\
  getProperties (setSessionId s st) = getProperties st /\
  getProperties (clearSessionId st) = getProperties st /\
  getProperties (setUserId u st) = getProperties st /\
  getProperties (clearUserId st) = getProperties st.
Proof.
  intros H. destruct st as [[store|] props]; [|contradiction H; reflexivity].
  repeat split.
Qed.

Lemma context_setters_in_scope_witness :
  getSessionId (setSessionId "s1" (mkOtel (Some (mkCtx None (Some "u1"))) ∅)) = Some "s1" /\
  getUserId (setSessionId "s1" (mkOtel (Some (mkCtx None (Some "u1"))) ∅)) = Some "u1".
Proof.
  destruct (context_setters_in_scope (mkOtel (Some (mkCtx None (Some "u1"))) ∅) "s1" "u2"
              ltac:(discriminate)) as [H1 [H2 _]].
  split; [exact H1 | exact H2].
Defined.

(** X26: [setProperties(props)] merges [props] into the properties map:
    its entries overwrite existing keys, later entries of [props] win over
    earlier ones, and every other key keeps its value; the ambient ids are
    untouched. *)
Theorem setProperties_merge (props : list (string * pv)) (st : otel_state) :
  getProperties (setProperties props st) = list_to_map (rev props) ∪ getProperties st /\
  als_store (setProperties props st) = als_store st.
Proof.
  revert st. induction props as [|[k v] props IH]; intros st.
  - simpl. rewrite map_empty_union. split; reflexivity.
  - simpl. destruct (IH (setProperty k v st)) as [Hp Hs]. split; [|exact Hs].
    unfold setProperties in Hp |- *. simpl in Hp |- *. rewrite Hp.
    rewrite list_to_map_app, <- map_union_assoc. simpl.
    rewrite insert_empty, <- insert_union_singleton_l. reflexivity.
Qed.

Lemma onStart_experiment_none (st : otel_state) (log : list string) (key : string) :
  key = "laika.experiment.id" \/ key = "laika.experiment.variant_id" \/
  key = "laika.experiment.user_id" ->
  attributes (inject_properties (map_to_list (getProperties st))
                (inject_user st (inject_session st (mkSpan ∅ log)))) !! key = None.
Proof.
  intros Hk.
  rewrite inject_properties_other by (intros k; apply property_key_ne; tauto).
  rewrite inject_user_other by (destruct Hk as [->|[->| ->]]; discriminate).
  rewrite inject_session_other by (destruct Hk as [->|[->| ->]]; discriminate).
  apply lookup_empty.
Qed.

(** X27: [onStart] attaches [laika.experiment.id] and
    [laika.experiment.variant_id] exactly when the probe
    [getCurrentExperiment()] returns an experiment, with its ids, and
    [laika.experiment.user_id] only when that experiment has a non-empty
    [userId]; a missing or failing module, a missing probe, a probe that
    throws or returns nothing attaches none of them. *)
Theorem onStart_experiment_attributes (st : otel_state) (collab : collaborator)
    (log : list string) :
  let exp := match collab with ModuleLoaded (Probe (Ok e)) => e | _ => None end in
  exists sp', onStart st collab (mkSpan ∅ log) = Ok sp' /\
  attributes sp' !! "laika.experiment.id" = option_map (fun e => PStr (experimentId e)) exp /\
  attributes sp' !! "laika.experiment.variant_id" = option_map (fun e => PStr (variantId e)) exp /\
  attributes sp' !! "laika.experiment.user_id" =
    match exp with
    | Some e => match exp_userId e with
                | Some uid => if truthy (JStr uid) then Some (PStr uid) else None
                | None => None
                end
    | None => None
    end.
Proof.
  intros exp. eexists. split; [reflexivity|].
  pose proof (onStart_experiment_none st log "laika.experiment.id" ltac:(tauto)) as H1.
  pose proof (onStart_experiment_none st log "laika.experiment.variant_id" ltac:(tauto)) as H2.
  pose proof (onStart_experiment_none st log "laika.experiment.user_id" ltac:(tauto)) as H3.
  set (sp3 := inject_properties _ _) in H1, H2, H3 |- *.
  subst exp. unfold inject_experiment, getExperimentContext.
  destruct collab as [|e|[|[[ex|]|e]]]; simpl; try (repeat split; assumption).
  destruct (exp_userId ex) as [uid|]; simpl; [destruct (String.eqb uid "")|]; simpl;
    repeat split; rewrite ?lookup_insert_ne by discriminate; rewrite ?lookup_insert_eq;
    first [reflexivity | assumption].
Qed.

(** X28: [Prompt.compile] keeps the experiment metadata and the client
    reference, so a compiled prompt is scored exactly like the prompt it
    was compiled from: [pushScore] gives the same result, with the same
    requests, for all scores and options. *)
Theorem compile_keeps_pushScore (injectVariables : jsval -> jsval -> result jsval)
    (p p' : ScorablePrompt) (variables : jsval) :
  compile injectVariables p variables = Ok p' ->
  forall (sdk_event_id request_id client_version : string)
         (server : http_request -> http_outcome) (scores options : jsval),
    prompt_pushScore sdk_event_id request_id client_version server p' scores options =
    prompt_pushScore sdk_event_id request_id client_version server p scores options.
Proof.
  unfold compile. destruct (injectVariables (sp_content p) variables) as [c|e]; simpl;
    [|discriminate].
  intros H. injection H as <-. intros. reflexivity.
Qed.

Lemma compile_keeps_pushScore_witness :
  prompt_pushScore "e1" "r1" "1.0.0" (fun _ => Responded 200 None)
    (mkScorable (JStr "Hi Ada") (JStr "v1") (JStr "x1") (JStr "b1") None JUndefined)
    (JArray []) JUndefined =
  prompt_pushScore "e1" "r1" "1.0.0" (fun _ => Responded 200 None)
    (mkScorable (JStr "Hi {{name}}") (JStr "v1") (JStr "x1") (JStr "b1") None JUndefined)
    (JArray []) JUndefined.
Proof.
  exact (compile_keeps_pushScore (fun _ _ => Ok (JStr "Hi Ada"))
    (mkScorable (JStr "Hi {{name}}") (JStr "v1") (JStr "x1") (JStr "b1") None JUndefined)
    (mkScorable (JStr "Hi Ada") (JStr "v1") (JStr "x1") (JStr "b1") None JUndefined)
    (JObject [("name", JStr "Ada")]) eq_refl
    "e1" "r1" "1.0.0" (fun _ => Responded 200 None) (JArray []) JUndefined).
Defined.
